(** * hsmapi: the DMF attribute codec and the offline projection of
    dual-residency files (dump/hsmapi.c)

    A shallow embedding of [dump/hsmapi.c].  Bytes are [Byte.byte]; C integers
    are [Z] with their conversions written out; the [attrval] buffer of a
    file context is a [list byte] addressed by offset; the DMAPI and
    attribute system calls are collaborators that are recorded in a trace. *)

From Stdlib Require Import ZArith Lia String.
From Stdlib Require Import Init.Byte Strings.Byte.
From stdpp Require Import base list.

Local Open Scope Z_scope.

(** ** Machine integers *)

Module CInt.

(** Conversion to [u_int64_t]. *)
Definition to_u64 (z : Z) : Z := z mod 2 ^ 64.

(** Conversion to [__int64_t] (two's complement). *)
Definition to_s64 (z : Z) : Z := (z + 2 ^ 63) mod 2 ^ 64 - 2 ^ 63.

(** The value of an [u_char]. *)
Definition u8 (b : byte) : Z := Z.of_N (Byte.to_N b).

(** The cast [(u_char)z]. *)
Definition to_u8 (z : Z) : byte :=
  match Byte.of_N (Z.to_N (z mod 256)) with
  | Some b => b
  | None => x00
  end.

End CInt.
Import CInt.

#[global] Instance byte_inhabited : Inhabited byte := populate x00.

(** ** The big-endian codec *)

(** [msb_store]: the loop runs [i] from [length - 1] down to [0]; [n] is
    [i + 1].  [dest] is the pointer [buf + base]. *)
Fixpoint msb_store_loop (n : nat) (buf : list byte) (base : nat) (src : Z)
  : list byte :=
  match n with
  | O => buf
  | S i =>
      msb_store_loop i (<[(base + i)%nat := to_u8 (Z.land src 255)]> buf)
        base (Z.shiftr src 8)
  end.

Definition msb_store (buf : list byte) (base : nat) (src : Z) (length : Z)
  : list byte :=
  msb_store_loop (Z.to_nat length) buf base (to_u64 src).

(** [msb_load]: the loop runs [i] from [0] to [length - 1]; [n] counts the
    iterations left. *)
Fixpoint msb_load_loop (n : nat) (buf : list byte) (base i : nat) (tmp : Z)
  : Z :=
  match n with
  | O => tmp
  | S n' =>
      msb_load_loop n' buf base (S i)
        (Z.lor (to_u64 (Z.shiftl tmp 8)) (u8 (buf !!! (base + i)%nat)))
  end.

Definition msb_load (buf : list byte) (base : nat) (length : Z) : Z :=
  msb_load_loop (Z.to_nat length) buf base 0 0.

(** ** Constants of the system headers

    [hsmapi.c] takes these from <sys/stat.h>, <xfs/libxfs.h>,
    <attr/attributes.h> and <xfs/dmapi.h>, which are not part of it; the
    development is parametric in their values. *)

Class Headers := {
  S_IFMT : Z;
  S_IFREG : Z;
  XFS_XFLAG_HASATTR : Z;
  DM_EVENT_DESTROY : Z;
  DM_EVENT_READ : Z;
  DM_EVENT_WRITE : Z;
  DM_EVENT_TRUNCATE : Z;
  ATTR_ROOT : Z;
  ATTR_OP_GET : Z;
  BBSHIFT : Z
}.

(** The values on Linux/XFS. *)
Definition linux_headers : Headers := {|
  S_IFMT := 61440;
  S_IFREG := 32768;
  XFS_XFLAG_HASATTR := 2147483648;
  DM_EVENT_DESTROY := 20;
  DM_EVENT_READ := 16;
  DM_EVENT_WRITE := 17;
  DM_EVENT_TRUNCATE := 18;
  ATTR_ROOT := 2;
  ATTR_OP_GET := 1;
  BBSHIFT := 9
|}.

(** ** The DMF attribute layout *)

Definition DMF_ATTR_NAME : string := "SGI_DMI_DMFATTR".

(** Field offsets and size of [XFSattrvalue0_t]. *)
Module XFSattrvalue0.
Definition fsys : nat := 0.
Definition version : nat := 1.
Definition state : nat := 2.
Definition flags : nat := 4.
Definition bfid : nat := 6.
Definition sizeof : Z := 22.
End XFSattrvalue0.

(** Field offsets and size of [XFSattrregion_t]. *)
Module XFSattrregion.
Definition rg_offset : nat := 0.
Definition rg_size : nat := 8.
Definition rg_state : nat := 16.
Definition rg_flags : nat := 18.
Definition rg_fbits : nat := 19.
Definition sizeof : Z := 20.
End XFSattrregion.

(** Field offsets and size of [XFSattrvalue1_t]. *)
Module XFSattrvalue1.
Definition fsys : nat := 0.
Definition version : nat := 1.
Definition state : nat := 2.
Definition flags : nat := 4.
Definition bfid : nat := 6.
Definition sitetag : nat := 22.
Definition regcnt : nat := 26.
Definition sizeof : Z := 28.
End XFSattrvalue1.

Definition MIN_FORMAT1_ATTR_LEN : Z :=
  XFSattrvalue1.sizeof + XFSattrregion.sizeof.

Definition FSYS_TYPE_XFS : Z := 1.

Definition DMF_ATTR_FORMAT_0 : Z := 0.
Definition DMF_ATTR_FORMAT_1 : Z := 1.

Definition DMF_ST_DUALSTATE : Z := 2.
Definition DMF_ST_OFFLINE : Z := 3.
Definition DMF_ST_UNMIGRATING : Z := 4.
Definition DMF_ST_PARTIAL : Z := 6.

Definition DMF_EV_BITS `{Headers} : Z :=
  Z.lor (Z.lor (Z.lor (Z.shiftl 1 DM_EVENT_DESTROY)
                      (Z.shiftl 1 DM_EVENT_READ))
               (Z.shiftl 1 DM_EVENT_WRITE))
        (Z.shiftl 1 DM_EVENT_TRUNCATE).

Definition DMF_MR_FLAGS : Z := Z.lor (Z.lor 1 2) 4.

(** Modelled from the spec: the [BTOBB] macro comes from the XFS headers and
    is not part of [hsmapi.c]; it is the spec's ceil_to_block, bytes to
    basic blocks of [2 ^ BBSHIFT] bytes rounded up, computed in [__u64]. *)
Definition BTOBB `{Headers} (bytes : Z) : Z :=
  Z.shiftr (to_u64 (to_u64 (to_u64 bytes + Z.shiftl 1 BBSHIFT) - 1)) BBSHIFT.

(** ** Contexts and the structures of the callers *)

Record dmf_fs_ctxt_t := {
  dumpversion : Z;
  fsid : Z
}.

(** [attrval] is [char attrval[5000]]. *)
Record dmf_f_ctxt_t := {
  fsys : dmf_fs_ctxt_t;
  filesize : Z;
  candidate : Z;
  attrlen : Z;
  attrval : list byte
}.

Definition ATTRVAL_SIZE : Z := 5000.

Definition with_fsys (c : dmf_f_ctxt_t) (v : dmf_fs_ctxt_t) : dmf_f_ctxt_t :=
  {| fsys := v; filesize := filesize c; candidate := candidate c;
     attrlen := attrlen c; attrval := attrval c |}.

Definition with_filesize (c : dmf_f_ctxt_t) (v : Z) : dmf_f_ctxt_t :=
  {| fsys := fsys c; filesize := v; candidate := candidate c;
     attrlen := attrlen c; attrval := attrval c |}.

Definition with_candidate (c : dmf_f_ctxt_t) (v : Z) : dmf_f_ctxt_t :=
  {| fsys := fsys c; filesize := filesize c; candidate := v;
     attrlen := attrlen c; attrval := attrval c |}.

Definition with_attrlen (c : dmf_f_ctxt_t) (v : Z) : dmf_f_ctxt_t :=
  {| fsys := fsys c; filesize := filesize c; candidate := candidate c;
     attrlen := v; attrval := attrval c |}.

Definition with_attrval (c : dmf_f_ctxt_t) (v : list byte) : dmf_f_ctxt_t :=
  {| fsys := fsys c; filesize := filesize c; candidate := candidate c;
     attrlen := attrlen c; attrval := v |}.

(** Modelled from the spec: [xfs_bstat_t] is declared in the XFS headers;
    these are the fields of the file metadata that [hsmapi.c] reads or
    writes: inode number and generation, type and mode, size, the flag word
    with the has-attributes bit, and the DMAPI event mask. *)
Record xfs_bstat_t := {
  bs_ino : Z;
  bs_mode : Z;
  bs_size : Z;
  bs_xflags : Z;
  bs_gen : Z;
  bs_dmevmask : Z
}.

Definition with_bs_dmevmask (s : xfs_bstat_t) (v : Z) : xfs_bstat_t :=
  {| bs_ino := bs_ino s; bs_mode := bs_mode s; bs_size := bs_size s;
     bs_xflags := bs_xflags s; bs_gen := bs_gen s; bs_dmevmask := v |}.

(** Modelled from the spec: [struct getbmapx] is declared in the XFS
    headers; an element of the extent array, with the count slot
    [bmv_entries] and the block offset, physical block and length of an
    extent. *)
Record getbmapx := {
  bmv_offset : Z;
  bmv_block : Z;
  bmv_length : Z;
  bmv_count : Z;
  bmv_entries : Z;
  bmv_iflags : Z;
  bmv_oflags : Z
}.

Definition with_bmv_block (b : getbmapx) (v : Z) : getbmapx :=
  {| bmv_offset := bmv_offset b; bmv_block := v; bmv_length := bmv_length b;
     bmv_count := bmv_count b; bmv_entries := bmv_entries b;
     bmv_iflags := bmv_iflags b; bmv_oflags := bmv_oflags b |}.

Definition with_bmv_length (b : getbmapx) (v : Z) : getbmapx :=
  {| bmv_offset := bmv_offset b; bmv_block := bmv_block b; bmv_length := v;
     bmv_count := bmv_count b; bmv_entries := bmv_entries b;
     bmv_iflags := bmv_iflags b; bmv_oflags := bmv_oflags b |}.

Definition with_bmv_entries (b : getbmapx) (v : Z) : getbmapx :=
  {| bmv_offset := bmv_offset b; bmv_block := bmv_block b;
     bmv_length := bmv_length b; bmv_count := bmv_count b; bmv_entries := v;
     bmv_iflags := bmv_iflags b; bmv_oflags := bmv_oflags b |}.

#[global] Instance getbmapx_inhabited : Inhabited getbmapx :=
  populate {| bmv_offset := 0; bmv_block := 0; bmv_length := 0;
              bmv_count := 0; bmv_entries := 0; bmv_iflags := 0;
              bmv_oflags := 0 |}.

(** ** The collaborators: DMAPI handles and the attribute system call *)

Definition handle := list byte.

(** The request that [HsmInitFileContext] passes in an [attr_multiop_t];
    [am_attrvalue] is the context's own [attrval]. *)
Record attr_multiop_t := {
  am_opcode : Z;
  am_error : Z;
  am_attrname : string;
  am_length : Z;
  am_flags : Z
}.

(** What [attr_multi_by_handle] hands back: its return value, the [am_error]
    it stored, and the bytes it wrote to [am_attrvalue]; [am_length] on
    return is the number of those bytes. *)
Record attr_reply := {
  ar_error : Z;
  ar_am_error : Z;
  ar_value : list byte
}.

Class Collaborators := {
  make_handle : Z -> Z -> Z -> Z * handle;
  attr_multi : handle -> attr_multiop_t -> attr_reply
}.

(** The calls made to the collaborators, oldest first. *)
Inductive call :=
| Call_dm_make_handle (fsid ino igen : Z)
| Call_attr_multi_by_handle (hanp : handle) (op : attr_multiop_t)
| Call_free_handle (hanp : handle).

Definition Sys (A : Type) : Type := list call -> A * list call.

Definition ret {A} (a : A) : Sys A := fun t => (a, t).

Definition bind {A B} (m : Sys A) (k : A -> Sys B) : Sys B :=
  fun t => let (a, t') := m t in k a t'.

Definition emit (e : call) : Sys unit := fun t => (tt, t ++ [e]).

Notation "'let*' x := m 'in' k" := (bind m (fun x => k))
  (at level 10, x name, m at level 100, k at level 200).
Notation "'let*' ' p := m 'in' k" := (bind m (fun x => let 'p := x in k))
  (at level 10, p pattern, m at level 100, k at level 200).

Definition dm_make_handle `{Collaborators} (fsid ino igen : Z)
  : Sys (Z * handle) :=
  let* _ := emit (Call_dm_make_handle fsid ino igen) in
  ret (make_handle fsid ino igen).

Definition attr_multi_by_handle `{Collaborators} (hanp : handle)
  (op : attr_multiop_t) : Sys attr_reply :=
  let* _ := emit (Call_attr_multi_by_handle hanp op) in
  ret (attr_multi hanp op).

Definition free_handle (hanp : handle) : Sys unit :=
  emit (Call_free_handle hanp).

(** ** The operations of [hsmapi.c] *)

Section Hsm.
Context `{Headers} `{Collaborators}.

(** [HsmEstimateFileSpace]: the result is the return value and what was
    stored to [*bytes], if anything. *)
Definition HsmEstimateFileSpace (contextp : dmf_fs_ctxt_t)
  (statp : xfs_bstat_t) : Z * option Z :=
  if negb (Z.land (bs_mode statp) S_IFMT =? S_IFREG) then (0, None)
  else if Z.land (bs_xflags statp) XFS_XFLAG_HASATTR =? 0 then (0, None)
  else if Z.land (bs_dmevmask statp) DMF_EV_BITS =? 0 then (0, None)
  else (1, Some 0).

(** [HsmAllocateFileContext]: [heap] is what [malloc] returned, [None] for
    [NULL], else the uninitialised block. *)
Definition HsmAllocateFileContext (heap : option dmf_f_ctxt_t)
  (contextp : dmf_fs_ctxt_t) : option dmf_f_ctxt_t :=
  match heap with
  | None => None
  | Some dmf_f_ctxtp =>
      Some (with_candidate (with_fsys dmf_f_ctxtp contextp) 0)
  end.

(** [HsmInitFileContext]: returns the return value and the context as the
    call leaves it. *)
Definition HsmInitFileContext (contextp : dmf_f_ctxt_t)
  (statp : xfs_bstat_t) : Sys (Z * dmf_f_ctxt_t) :=
  let c := with_candidate contextp 0 in
  if negb (Z.land (bs_mode statp) S_IFMT =? S_IFREG) then ret (0, c)
  else if Z.land (bs_xflags statp) XFS_XFLAG_HASATTR =? 0 then ret (0, c)
  else if Z.land (bs_dmevmask statp) DMF_EV_BITS =? 0 then ret (0, c)
  else
    let ino := bs_ino statp in
    let igen := bs_gen statp in
    let* '(rc, hanp) := dm_make_handle (fsid (fsys c)) ino igen in
    if negb (rc =? 0) then ret (0, c)
    else
      let attr_op := {| am_opcode := ATTR_OP_GET;
                        am_error := 0;
                        am_attrname := DMF_ATTR_NAME;
                        am_length := ATTRVAL_SIZE;
                        am_flags := ATTR_ROOT |} in
      let* reply := attr_multi_by_handle hanp attr_op in
      let c := with_attrval c (list_inserts 0 (ar_value reply) (attrval c)) in
      let* _ := free_handle hanp in
      if negb (ar_error reply =? 0) || negb (ar_am_error reply =? 0)
      then ret (0, c)
      else
        let c := with_attrlen c (Z.of_nat (length (ar_value reply))) in
        if negb (u8 (attrval c !!! XFSattrvalue0.fsys) =? FSYS_TYPE_XFS)
        then ret (0, c)
        else
          let version := u8 (attrval c !!! XFSattrvalue0.version) in
          if (if version =? DMF_ATTR_FORMAT_0
              then negb (attrlen c =? XFSattrvalue0.sizeof)
              else if version =? DMF_ATTR_FORMAT_1
                   then attrlen c <? MIN_FORMAT1_ATTR_LEN
                   else true)
          then ret (0, c)
          else
            let state := msb_load (attrval c) XFSattrvalue0.state 2 in
            if (state =? DMF_ST_DUALSTATE) || (state =? DMF_ST_UNMIGRATING)
               || (state =? DMF_ST_PARTIAL) || (state =? DMF_ST_OFFLINE)
            then ret (0, with_filesize (with_candidate c 1) (bs_size statp))
            else ret (0, c).

(** [HsmEstimateFileOffset]: [dmf_f_ctxt] is the uninitialised local
    context; the result is the return value and what was stored to
    [*byteoffset], if anything. *)
Definition HsmEstimateFileOffset (dmf_f_ctxt : dmf_f_ctxt_t)
  (contextp : dmf_fs_ctxt_t) (statp : xfs_bstat_t) (bytecount : Z)
  : Sys (Z * option Z) :=
  let dmf_f_ctxt := with_fsys dmf_f_ctxt contextp in
  let dmf_f_ctxt := with_candidate dmf_f_ctxt 0 in
  let* '(rc, dmf_f_ctxt) := HsmInitFileContext dmf_f_ctxt statp in
  if negb (rc =? 0) then ret (0, None)
  else if negb (candidate dmf_f_ctxt =? 0)
       then ret (1, Some (bs_size statp))
       else ret (0, None).

Definition HsmModifyInode (contextp : dmf_f_ctxt_t) (statp : xfs_bstat_t)
  : Z * xfs_bstat_t :=
  if negb (candidate contextp =? 0)
  then (1, with_bs_dmevmask statp DMF_EV_BITS)
  else (1, statp).

(** [HsmModifyExtentMap] on the array [bmap]; [length] is
    [__u64 - __s64] stored to an [__int64_t]. *)
Definition HsmModifyExtentMap (contextp : dmf_f_ctxt_t)
  (bmap : list getbmapx) : Z * list getbmapx :=
  if bmv_entries (bmap !!! 0%nat) <=? 0 then (1, bmap)
  else if candidate contextp =? 0 then (1, bmap)
  else
    let length :=
      to_s64 (to_u64 (BTOBB (filesize contextp)
                      - bmv_offset (bmap !!! 1%nat))) in
    if 0 <? length then
      let bmap := <[0%nat := with_bmv_entries (bmap !!! 0%nat) 1]> bmap in
      let bmap := <[1%nat := with_bmv_block (bmap !!! 1%nat) (-1)]> bmap in
      let bmap := <[1%nat := with_bmv_length (bmap !!! 1%nat) length]> bmap in
      (1, bmap)
    else
      let bmap := <[0%nat := with_bmv_entries (bmap !!! 0%nat) 0]> bmap in
      (1, bmap).

(** C's [strcmp]: zero exactly when the strings are equal. *)
Definition strcmp (a b : string) : Z :=
  match String.compare a b with
  | Eq => 0
  | Lt => -1
  | Gt => 1
  end.

(** [HsmFilterExistingAttribute]: the return value and [*skip_entry]. *)
Definition HsmFilterExistingAttribute (dmf_f_ctxtp : dmf_f_ctxt_t)
  (namep : string) (valuesz : Z) (flag : Z) : Z * Z :=
  let skip_entry := 0 in
  if candidate dmf_f_ctxtp =? 0 then (1, skip_entry)
  else if negb (flag =? ATTR_ROOT) then (1, skip_entry)
  else if negb (strcmp namep DMF_ATTR_NAME =? 0) then (1, skip_entry)
  else if valuesz <? XFSattrvalue0.sizeof then (0, skip_entry)
  else (1, 1).

(** Where [*valuepp] can point. *)
Inductive value_ptr := Ptr_attrval.

(** The out-parameters of [HsmAddNewAttribute]; [None] in [namep] is
    [NULL], [None] in [valuep] or [valuesz] is a location left unwritten. *)
Record new_attribute := {
  namep : option string;
  valuep : option value_ptr;
  valuesz : option Z
}.

(** [HsmAddNewAttribute]: the return value, the out-parameters and the
    context as the call leaves it. *)
Definition HsmAddNewAttribute (dmf_f_ctxtp : dmf_f_ctxt_t) (cursor : Z)
  (flag : Z) : Z * new_attribute * dmf_f_ctxt_t :=
  let none := {| namep := None; valuep := None; valuesz := None |} in
  if candidate dmf_f_ctxtp =? 0 then (1, none, dmf_f_ctxtp)
  else if negb (flag =? ATTR_ROOT) then (1, none, dmf_f_ctxtp)
  else if 0 <? cursor then (1, none, dmf_f_ctxtp)
  else
    let c := dmf_f_ctxtp in
    let c :=
      if (u8 (attrval c !!! XFSattrvalue1.version) =? DMF_ATTR_FORMAT_1)
         && negb (msb_load (attrval c) XFSattrvalue1.sitetag 4 =? 0)
      then
        let reg := Z.to_nat XFSattrvalue1.sizeof in
        let c := with_attrlen c MIN_FORMAT1_ATTR_LEN in
        let c := with_attrval c
          (msb_store (attrval c) XFSattrvalue1.regcnt 1 2) in
        let c := with_attrval c
          (msb_store (attrval c) (reg + XFSattrregion.rg_offset) 0 8) in
        let c := with_attrval c
          (msb_store (attrval c) (reg + XFSattrregion.rg_size)
             (filesize c) 8) in
        let c := with_attrval c
          (msb_store (attrval c) (reg + XFSattrregion.rg_state)
             DMF_ST_OFFLINE 2) in
        let c := with_attrval c
          (<[(reg + XFSattrregion.rg_flags)%nat := to_u8 DMF_MR_FLAGS]>
             (attrval c)) in
        with_attrval c
          (<[(reg + XFSattrregion.rg_fbits)%nat := to_u8 0]> (attrval c))
      else
        let c := with_attrval c
          (<[XFSattrvalue1.version := to_u8 DMF_ATTR_FORMAT_0]>
             (attrval c)) in
        with_attrlen c XFSattrvalue0.sizeof in
    let c := with_attrval c
      (msb_store (attrval c) XFSattrvalue1.state DMF_ST_OFFLINE 2) in
    (1,
     {| namep := Some DMF_ATTR_NAME;
        valuep := Some Ptr_attrval;
        valuesz := Some (attrlen c) |},
     c).

(** The bytes that a caller reads through [*valuepp] and [*valueszp] while
    the context is [c]. *)
Definition attribute_value (c : dmf_f_ctxt_t) (a : new_attribute)
  : option (list byte) :=
  match valuep a, valuesz a with
  | Some Ptr_attrval, Some sz => Some (take (Z.to_nat sz) (attrval c))
  | _, _ => None
  end.

End Hsm.

(** ** Vocabulary of the specification *)

(** A context whose [attrval] has the size its C type gives it. *)
Definition wf_ctxt (c : dmf_f_ctxt_t) : Prop :=
  Z.of_nat (length (attrval c)) = ATTRVAL_SIZE.

(** The three quick tests of the bulkstat structure: a regular file, that
    may have attributes, with one of the DMF event bits set. *)
Definition likely_candidate `{Headers} (statp : xfs_bstat_t) : bool :=
  (Z.land (bs_mode statp) S_IFMT =? S_IFREG)
  && negb (Z.land (bs_xflags statp) XFS_XFLAG_HASATTR =? 0)
  && negb (Z.land (bs_dmevmask statp) DMF_EV_BITS =? 0).

(** The attribute request of [HsmInitFileContext]. *)
Definition dmf_attr_get `{Headers} : attr_multiop_t :=
  {| am_opcode := ATTR_OP_GET;
     am_error := 0;
     am_attrname := DMF_ATTR_NAME;
     am_length := ATTRVAL_SIZE;
     am_flags := ATTR_ROOT |}.

(** The value of byte [i] of a fetched attribute, if it has one. *)
Definition attr_byte (v : list byte) (i : nat) : option Z := u8 <$> v !! i.

(** [filesystem_type] is the supported one. *)
Definition fsys_supported (v : list byte) : bool :=
  match attr_byte v 0 with
  | Some f => f =? 1
  | None => false
  end.

(** Format 0 with exactly the 22 bytes of its header, or format 1 with at
    least the 28 bytes of its header and one region of 20. *)
Definition format_and_length_ok (v : list byte) : bool :=
  match attr_byte v 1 with
  | Some version =>
      if version =? 0 then Z.of_nat (length v) =? 22
      else if version =? 1 then 28 + 20 <=? Z.of_nat (length v)
      else false
  | None => false
  end.

(** [global_state], bytes 2 and 3, most significant first. *)
Definition global_state (v : list byte) : option Z :=
  match attr_byte v 2, attr_byte v 3 with
  | Some hi, Some lo => Some (hi * 256 + lo)
  | _, _ => None
  end.

(** Dual-residency (2), offline (3), staging in (4) or partially online (6). *)
Definition state_projectable (v : list byte) : bool :=
  match global_state v with
  | Some s => (s =? 2) || (s =? 3) || (s =? 4) || (s =? 6)
  | None => false
  end.

Definition attr_qualifies (v : list byte) : bool :=
  fsys_supported v && format_and_length_ok v && state_projectable v.

(** The classification of section 4.4, as a function of the filesystem
    context, the metadata and what the collaborators answer. *)
Definition eligible `{Headers} `{Collaborators} (fs : dmf_fs_ctxt_t)
  (statp : xfs_bstat_t) : bool :=
  likely_candidate statp
  && (let '(rc, hanp) := make_handle (fsid fs) (bs_ino statp) (bs_gen statp) in
      (rc =? 0)
      && (let reply := attr_multi hanp dmf_attr_get in
          (ar_error reply =? 0) && (ar_am_error reply =? 0)
          && attr_qualifies (ar_value reply))).

(** The explicit sequence that [HsmEstimateFileOffset] stands for: allocate
    a file context, classify, then query the candidate flag and the cached
    size. *)
Definition estimate_with_explicit_context `{Headers} `{Collaborators}
  (heap : option dmf_f_ctxt_t) (contextp : dmf_fs_ctxt_t)
  (statp : xfs_bstat_t) (bytecount : Z) : Sys (Z * option Z) :=
  match HsmAllocateFileContext heap contextp with
  | None => ret (0, None)
  | Some c =>
      let* '(rc, c) := HsmInitFileContext c statp in
      if (rc =? 0) && negb (candidate c =? 0)
      then ret (1, Some (filesize c))
      else ret (0, None)
  end.

(** Overwriting the bytes that [W] names and keeping the others. *)
Definition overwrite (W : nat -> option byte) (buf : list byte) : list byte :=
  imap (fun k b => default b (W k)) buf.

(** The byte that an assignment to [buf[k]] writes. *)
Definition insert_bytes (k : nat) (x : byte) : nat -> option byte :=
  fun j => if Nat.eqb j k then Some x else None.

(** The bytes that [msb_store_loop n _ base src] writes. *)
Definition store_bytes (base n : nat) (src : Z) : nat -> option byte :=
  fun k =>
    if Nat.leb base k && Nat.ltb k (base + n)
    then Some (to_u8 (Z.shiftr src (8 * Z.of_nat (n - 1 - (k - base)))))
    else None.

(** [W2] written after [W1]. *)
Definition over (W2 W1 : nat -> option byte) : nat -> option byte :=
  fun k =>
    match W2 k with
    | Some x => Some x
    | None => W1 k
    end.

(** The bytes that [HsmAddNewAttribute] writes for a format 1 value and
    for a format 0 value. *)
Definition format1_writes (filesize : Z) : nat -> option byte :=
  over (store_bytes 2 2 (to_u64 3))
    (over (insert_bytes 47 (to_u8 0))
       (over (insert_bytes 46 (to_u8 DMF_MR_FLAGS))
          (over (store_bytes 44 2 (to_u64 3))
             (over (store_bytes 36 8 (to_u64 filesize))
                (over (store_bytes 28 8 (to_u64 0))
                   (store_bytes 26 2 (to_u64 1))))))).

Definition format0_writes : nat -> option byte :=
  over (store_bytes 2 2 (to_u64 3)) (insert_bytes 1 (to_u8 0)).

(** ** Concrete inputs *)

(** Collaborators with fixed answers. *)
Definition fixed_collaborators (rc : Z) (hanp : handle) (reply : attr_reply)
  : Collaborators :=
  {| make_handle := fun _ _ _ => (rc, hanp);
     attr_multi := fun _ _ => reply |}.

Definition sample_fs_ctxt : dmf_fs_ctxt_t := {| dumpversion := 1; fsid := 7 |}.

(** A context with a zeroed buffer, and one left over from an earlier file. *)
Definition sample_ctxt : dmf_f_ctxt_t :=
  {| fsys := sample_fs_ctxt; filesize := 0; candidate := 0; attrlen := 0;
     attrval := repeat x00 5000 |}.

Definition stale_ctxt : dmf_f_ctxt_t :=
  {| fsys := sample_fs_ctxt; filesize := 77; candidate := 1; attrlen := 22;
     attrval := repeat xff 5000 |}.

(** A regular file of 1000 bytes with attributes and the DMF event bits of
    a dual-state file; and a directory. *)
Definition sample_bstat : xfs_bstat_t :=
  {| bs_ino := 42; bs_mode := 33188; bs_size := 1000;
     bs_xflags := 2147483648; bs_gen := 1; bs_dmevmask := 1441792 |}.

Definition directory_bstat : xfs_bstat_t :=
  {| bs_ino := 43; bs_mode := 16877; bs_size := 4096;
     bs_xflags := 2147483648; bs_gen := 1; bs_dmevmask := 1441792 |}.

(** A format 0 attribute, offline. *)
Definition format0_attr : list byte :=
  [x01; x00; x00; x03; x00; x00] ++ repeat xaa 16.

(** A format 1 attribute, dual-state, site tag 7, one region. *)
Definition format1_attr : list byte :=
  [x01; x01; x00; x02; x00; x00] ++ repeat xaa 16
  ++ [x00; x00; x00; x07] ++ [x00; x01]
  ++ [x00; x00; x00; x00; x00; x00; x00; x00]
  ++ [x00; x00; x00; x00; x00; x00; x03; xe8]
  ++ [x00; x02; x00; x00].

(** A candidate context whose buffer holds [format1_attr]. *)
Definition format1_ctxt : dmf_f_ctxt_t :=
  {| fsys := sample_fs_ctxt; filesize := 1000; candidate := 1; attrlen := 48;
     attrval := format1_attr ++ repeat x00 4952 |}.

Definition fetch_ok (v : list byte) : Collaborators :=
  fixed_collaborators 0 [x2a]
    {| ar_error := 0; ar_am_error := 0; ar_value := v |}.

(** ** The filesystem context *)

(** [HSM_API_VERSION_1] comes from [hsmapi.h], which is not part of
    [hsmapi.c]; the development is parametric in its value. *)
Class HsmApi := {
  HSM_API_VERSION_1 : Z
}.

(** The handle services that [HsmInitFsysContext] calls:
    [path_to_fshandle] gives its return value and the handle it stored,
    [dm_handle_to_fsid] its return value and the fsid it stored. *)
Class FsysCollaborators := {
  fshandle_of_path : string -> Z * handle;
  fsid_of_handle : handle -> Z * Z
}.

(** The calls that [HsmInitFsysContext] makes, oldest first. *)
Inductive fs_call :=
| Call_path_to_fshandle (mountpoint : string)
| Call_dm_handle_to_fsid (fshanp : handle)
| Call_free_fshandle (fshanp : handle).

(** [HsmInitFsysContext]: [heap] is what [malloc] returns when it is
    reached, [None] for [NULL], else the uninitialised block; the result is
    the context, [None] for [NULL], and the calls made after those of [t].
    [malloc] is reached only when both handle services succeeded. *)
Definition HsmInitFsysContext `{HsmApi} `{FsysCollaborators}
  (heap : option dmf_fs_ctxt_t) (mountpoint : string) (dumpversion : Z)
  (t : list fs_call) : option dmf_fs_ctxt_t * list fs_call :=
  if negb (dumpversion =? HSM_API_VERSION_1) then (None, t)
  else
    let t := t ++ [Call_path_to_fshandle mountpoint] in
    let '(rc, fshanp) := fshandle_of_path mountpoint in
    if negb (rc =? 0) then (None, t)
    else
      let t := t ++ [Call_dm_handle_to_fsid fshanp] in
      let '(error, fsid) := fsid_of_handle fshanp in
      let t := t ++ [Call_free_fshandle fshanp] in
      if negb (error =? 0) then (None, t)
      else
        match heap with
        | None => (None, t)
        | Some dmf_fs_ctxtp =>
            (Some {| dumpversion := dumpversion; fsid := fsid |}, t)
        end.

(** Version 1 of the API and handle services with fixed answers. *)
Definition hsm_api_1 : HsmApi := {| HSM_API_VERSION_1 := 1 |}.

Definition fixed_fsys_collaborators (rc : Z) (fshanp : handle)
  (error fsid : Z) : FsysCollaborators :=
  {| fshandle_of_path := fun _ => (rc, fshanp);
     fsid_of_handle := fun _ => (error, fsid) |}.

(** A three-entry extent array as [getbmapx] fills it: a count of 2
    and two extents, of 7 blocks at block offset 0 and of 3 blocks after
    it. *)
Definition dense_bmap : list getbmapx :=
  [ {| bmv_offset := 0; bmv_block := 0; bmv_length := 0; bmv_count := 3;
       bmv_entries := 2; bmv_iflags := 0; bmv_oflags := 0 |};
    {| bmv_offset := 0; bmv_block := 96; bmv_length := 7; bmv_count := 0;
       bmv_entries := 0; bmv_iflags := 0; bmv_oflags := 0 |};
    {| bmv_offset := 7; bmv_block := 200; bmv_length := 3; bmv_count := 0;
       bmv_entries := 0; bmv_iflags := 0; bmv_oflags := 0 |} ].

(** A two-entry extent array: one extent of 2 blocks at block offset 0. *)
Definition sample_bmap : list getbmapx :=
  [ {| bmv_offset := 0; bmv_block := 0; bmv_length := 0; bmv_count := 2;
       bmv_entries := 1; bmv_iflags := 0; bmv_oflags := 0 |};
    {| bmv_offset := 0; bmv_block := 96; bmv_length := 2; bmv_count := 0;
       bmv_entries := 0; bmv_iflags := 0; bmv_oflags := 0 |} ].

(** * Properties *)

(** ** Bytes and machine integers *)

Lemma u8_range (b : byte) : 0 <= u8 b < 256.
Proof.
  unfold u8. pose proof (Byte.to_N_bounded b). lia.
Qed.

Lemma u8_to_u8 (z : Z) : u8 (to_u8 z) = z mod 256.
Proof.
  unfold u8, to_u8.
  pose proof (Z.mod_pos_bound z 256 ltac:(lia)) as Hm.
  destruct (Byte.of_N (Z.to_N (z mod 256))) as [b|] eqn:E.
  - apply Byte.to_of_N in E. rewrite E. lia.
  - apply Byte.of_N_None_iff in E. lia.
Qed.

Lemma to_u8_u8 (b : byte) : to_u8 (u8 b) = b.
Proof.
  unfold to_u8. pose proof (u8_range b) as Hb.
  rewrite Z.mod_small by lia.
  unfold u8. rewrite N2Z.id, Byte.of_to_N. reflexivity.
Qed.

Lemma to_u64_range (z : Z) : 0 <= to_u64 z < 2 ^ 64.
Proof. unfold to_u64. apply Z.mod_pos_bound. lia. Qed.

Lemma to_u64_small (z : Z) : 0 <= z < 2 ^ 64 -> to_u64 z = z.
Proof. intros Hz. unfold to_u64. apply Z.mod_small. exact Hz. Qed.

Lemma to_s64_to_u64 (z : Z) : to_s64 (to_u64 z) = to_s64 z.
Proof.
  unfold to_s64, to_u64. f_equal.
  rewrite Zplus_mod_idemp_l. reflexivity.
Qed.

Lemma to_s64_small (z : Z) : - 2 ^ 63 <= z < 2 ^ 63 -> to_s64 z = z.
Proof.
  intros Hz. unfold to_s64. rewrite Z.mod_small; lia.
Qed.

(** ** The codec: what [msb_store] writes and what [msb_load] reads *)

Lemma length_msb_store_loop (n : nat) (buf : list byte) (base : nat) (src : Z) :
  length (msb_store_loop n buf base src) = length buf.
Proof.
  revert buf src. induction n as [|i IH]; intros buf src; simpl.
  - reflexivity.
  - rewrite IH. apply length_insert.
Qed.

Lemma length_msb_store (buf : list byte) (base : nat) (src len : Z) :
  length (msb_store buf base src len) = length buf.
Proof. apply length_msb_store_loop. Qed.

Lemma msb_store_loop_outside (n : nat) (buf : list byte) (base : nat)
  (src : Z) (k : nat) :
  (k < base \/ base + n <= k)%nat ->
  msb_store_loop n buf base src !! k = buf !! k.
Proof.
  revert buf src. induction n as [|i IH]; intros buf src Hk; simpl.
  - reflexivity.
  - rewrite IH by lia. apply list_lookup_insert_ne. lia.
Qed.

Lemma msb_store_loop_inside (n : nat) (buf : list byte) (base : nat)
  (src : Z) (j : nat) :
  (j < n)%nat -> (base + j < length buf)%nat ->
  msb_store_loop n buf base src !! (base + j)%nat
  = Some (to_u8 (Z.shiftr src (8 * Z.of_nat (n - 1 - j)))).
Proof.
  revert buf src. induction n as [|i IH]; intros buf src Hj Hlen; simpl.
  - lia.
  - destruct (decide (j = i)) as [->|Hne].
    + rewrite msb_store_loop_outside by lia.
      rewrite list_lookup_insert_eq by lia.
      replace (i - 0 - i)%nat with 0%nat by lia.
      rewrite Z.shiftr_0_r. f_equal.
      unfold to_u8. change 255 with (Z.ones 8).
      rewrite Z.land_ones by lia. change (2 ^ 8) with 256.
      rewrite Z.mod_mod by lia. reflexivity.
    + rewrite IH by (rewrite ?length_insert; lia).
      rewrite Z.shiftr_shiftr by lia. do 3 f_equal. lia.
Qed.

Lemma msb_store_outside (buf : list byte) (base : nat) (src len : Z)
  (k : nat) :
  (k < base \/ base + Z.to_nat len <= k)%nat ->
  msb_store buf base src len !!! k = buf !!! k.
Proof.
  intros Hk. rewrite !list_lookup_total_alt. unfold msb_store.
  rewrite msb_store_loop_outside by exact Hk. reflexivity.
Qed.

Lemma msb_load_loop_ext (n : nat) (buf buf' : list byte) (base i : nat)
  (tmp : Z) :
  (forall j, (i <= j < i + n)%nat ->
             buf !!! (base + j)%nat = buf' !!! (base + j)%nat) ->
  msb_load_loop n buf base i tmp = msb_load_loop n buf' base i tmp.
Proof.
  revert i tmp. induction n as [|n IH]; intros i tmp Hext; simpl.
  - reflexivity.
  - rewrite (Hext i) by lia. apply IH. intros j Hj. apply Hext. lia.
Qed.

Lemma msb_load_ext (buf buf' : list byte) (base : nat) (len : Z) :
  (forall j, (j < Z.to_nat len)%nat ->
             buf !!! (base + j)%nat = buf' !!! (base + j)%nat) ->
  msb_load buf base len = msb_load buf' base len.
Proof.
  intros Hext. apply msb_load_loop_ext. intros j Hj. apply Hext. lia.
Qed.

(** Reading [n] bytes that spell [v] most significant byte first, on top
    of an accumulator that leaves room for them. *)
Lemma msb_load_loop_value (n : nat) (buf : list byte) (base i : nat)
  (tmp v : Z) :
  (forall j, (j < n)%nat ->
     u8 (buf !!! (base + (i + j))%nat)
     = (v / 2 ^ (8 * Z.of_nat (n - 1 - j))) mod 256) ->
  0 <= tmp -> (tmp + 1) * 2 ^ (8 * Z.of_nat n) <= 2 ^ 64 ->
  msb_load_loop n buf base i tmp
  = tmp * 2 ^ (8 * Z.of_nat n) + v mod 2 ^ (8 * Z.of_nat n).
Proof.
  revert i tmp. induction n as [|n IH]; intros i tmp Hb Htmp Hroom.
  - simpl. rewrite Z.mod_1_r. lia.
  - cbn [msb_load_loop].
    pose proof (Hb 0%nat ltac:(lia)) as Hb0.
    replace (i + 0)%nat with i in Hb0 by lia.
    replace (S n - 1 - 0)%nat with n in Hb0 by lia.
    set (p := 2 ^ (8 * Z.of_nat n)) in *.
    assert (Hp : 0 < p) by (apply Z.pow_pos_nonneg; lia).
    assert (HpS : 2 ^ (8 * Z.of_nat (S n)) = p * 256).
    { replace (8 * Z.of_nat (S n)) with (8 * Z.of_nat n + 8) by lia.
      rewrite Z.pow_add_r by lia. reflexivity. }
    rewrite HpS in *.
    pose proof (Z.mod_pos_bound (v / p) 256 ltac:(lia)) as Hbyte.
    assert (Hshift : to_u64 (Z.shiftl tmp 8) = tmp * 256).
    { rewrite Z.shiftl_mul_pow2 by lia. change (2 ^ 8) with 256.
      apply to_u64_small. nia. }
    assert (Hlor : Z.lor (tmp * 256) ((v / p) mod 256)
                   = tmp * 256 + (v / p) mod 256).
    { symmetry. apply Z.add_nocarry_lor.
      replace (tmp * 256) with (Z.shiftl tmp 8)
        by (rewrite Z.shiftl_mul_pow2 by lia; reflexivity).
      apply Z.bits_inj'. intros k Hk. rewrite Z.land_spec, Z.bits_0.
      destruct (Z.lt_ge_cases k 8) as [Hlt|Hge].
      - rewrite (Z.shiftl_spec_low tmp 8 k) by lia. reflexivity.
      - replace ((v / p) mod 256) with ((v / p) mod 2 ^ 8) by reflexivity.
        rewrite Z.mod_pow2_bits_high by lia. apply andb_false_r. }
    rewrite Hshift, Hb0, Hlor.
    rewrite IH.
    + fold p. rewrite (Z.rem_mul_r v p 256) by lia. lia.
    + intros j Hj. specialize (Hb (S j) ltac:(lia)).
      replace (S i + j)%nat with (i + S j)%nat by lia.
      rewrite Hb. do 4 f_equal. lia.
    + lia.
    + fold p. nia.
Qed.

(** Loading from where a value was just stored gives back its low
    [8 * len] bits. *)
Lemma msb_load_msb_store (buf : list byte) (base : nat) (src len : Z) :
  0 <= len <= 8 -> (base + Z.to_nat len <= length buf)%nat ->
  msb_load (msb_store buf base src len) base len
  = to_u64 src mod 2 ^ (8 * len).
Proof.
  intros Hlen Hfit. unfold msb_load.
  rewrite (msb_load_loop_value _ _ _ _ _ (to_u64 src)).
  - rewrite Z2Nat.id by lia. lia.
  - intros j Hj. unfold msb_store. simpl.
    rewrite list_lookup_total_alt, msb_store_loop_inside by lia.
    simpl. rewrite u8_to_u8, Z.shiftr_div_pow2 by lia. reflexivity.
  - lia.
  - rewrite Z2Nat.id by lia.
    change (2 ^ 64) with (2 ^ (8 * 8)).
    rewrite Z.mul_1_l. apply Z.pow_le_mono_r; lia.
Qed.

Lemma msb_load_take (buf : list byte) (n base : nat) (len : Z) :
  (base + Z.to_nat len <= n)%nat ->
  msb_load (take n buf) base len = msb_load buf base len.
Proof.
  intros Hn. apply msb_load_ext. intros j Hj.
  apply lookup_total_take_lt. lia.
Qed.

Lemma msb_load_msb_store_other (buf : list byte) (base base' : nat)
  (src len len' : Z) :
  (base' + Z.to_nat len' <= base \/ base + Z.to_nat len <= base')%nat ->
  msb_load (msb_store buf base src len) base' len' = msb_load buf base' len'.
Proof.
  intros Hd. apply msb_load_ext. intros j Hj.
  apply msb_store_outside. lia.
Qed.

Lemma msb_load_insert_other (buf : list byte) (k base : nat) (b : byte)
  (len : Z) :
  (k < base \/ base + Z.to_nat len <= k)%nat ->
  msb_load (<[k := b]> buf) base len = msb_load buf base len.
Proof.
  intros Hd. apply msb_load_ext. intros j Hj.
  apply list_lookup_total_insert_ne. lia.
Qed.

(** A two-byte field is its first byte times 256 plus its second. *)
Lemma msb_load_2 (buf : list byte) (base : nat) :
  msb_load buf base 2
  = u8 (buf !!! base) * 256 + u8 (buf !!! (base + 1)%nat).
Proof.
  pose proof (u8_range (buf !!! base)) as H0.
  pose proof (u8_range (buf !!! (base + 1)%nat)) as H1.
  set (v := u8 (buf !!! base) * 256 + u8 (buf !!! (base + 1)%nat)).
  unfold msb_load.
  rewrite (msb_load_loop_value _ _ _ _ _ v).
  - change (2 ^ (8 * Z.of_nat (Z.to_nat 2))) with 65536.
    rewrite Z.mod_small; subst v; lia.
  - intros j Hj. change (Z.to_nat 2) with 2%nat in *.
    destruct j as [|[|j]]; [ | | lia]; subst v; simpl.
    + replace (base + 0)%nat with base by lia.
      change (2 ^ 8) with 256.
      rewrite Z.div_add_l, (Z.div_small (u8 _) 256), Z.add_0_r by lia.
      rewrite Z.mod_small; lia.
    + rewrite Z.div_1_r.
      rewrite Z.add_comm, Z.mod_add, Z.mod_small by lia. reflexivity.
  - lia.
  - change (2 ^ (8 * Z.of_nat (Z.to_nat 2))) with 65536. lia.
Qed.

(** C8. For a width [w] of 1 to 8 bytes and an unsigned value [v] that fits
    in [w] bytes, [msb_load] of the [w] bytes that [msb_store] wrote for [v]
    (anywhere inside a buffer) is [v]. *)
Theorem msb_load_msb_store_roundtrip (buf : list byte) (base : nat)
  (w v : Z) :
  1 <= w <= 8 -> 0 <= v < 2 ^ (8 * w) ->
  (base + Z.to_nat w <= length buf)%nat ->
  msb_load (msb_store buf base v w) base w = v.
Proof.
  intros Hw Hv Hfit.
  assert (Hpow : 2 ^ (8 * w) <= 2 ^ 64).
  { change 64 with (8 * 8). apply Z.pow_le_mono_r; lia. }
  rewrite msb_load_msb_store by lia.
  rewrite to_u64_small by lia.
  apply Z.mod_small. exact Hv.
Qed.

Lemma msb_load_msb_store_roundtrip_witness :
  msb_load (msb_store (repeat x00 6) 1 66051 3) 1 3 = 66051.
Proof.
  apply msb_load_msb_store_roundtrip; [lia | lia | simpl; lia].
Defined.

(** ** Classification *)

Lemma list_inserts_idemp (v buf : list byte) (i : nat) :
  list_inserts i v (list_inserts i v buf) = list_inserts i v buf.
Proof.
  apply list_eq. intros j.
  destruct (decide (j < i)%nat) as [Hlt|Hge].
  { rewrite !list_lookup_inserts_lt by lia. reflexivity. }
  destruct (decide (i + length v <= j)%nat) as [Hhi|Hin].
  { rewrite !list_lookup_inserts_ge by lia. reflexivity. }
  destruct (decide (j < length buf)%nat) as [Hj|Hj].
  - rewrite !list_lookup_inserts by (rewrite ?length_inserts; lia).
    reflexivity.
  - rewrite !(proj2 (lookup_ge_None _ _)) by (rewrite ?length_inserts; lia).
    reflexivity.
Qed.

Lemma fetched_lookup_total (v buf : list byte) (j : nat) :
  (j < length v)%nat -> (j < length buf)%nat ->
  list_inserts 0 v buf !!! j = v !!! j.
Proof.
  intros Hv Hb. rewrite list_lookup_total_inserts by lia.
  f_equal. lia.
Qed.

Ltac run_sys :=
  unfold dm_make_handle, attr_multi_by_handle, free_handle;
  unfold bind, ret, emit; cbv beta iota zeta.

Ltac case_if :=
  match goal with
  | |- context [if ?b then _ else _] => destruct b eqn:?
  end.

Ltac case_Z_tests :=
  repeat match goal with
    | |- context [Z.eqb ?a ?b] => destruct (Z.eqb_spec a b)
    | |- context [Z.ltb ?a ?b] => destruct (Z.ltb_spec a b)
    | |- context [Z.leb ?a ?b] => destruct (Z.leb_spec a b)
    end.

(** The checks that [HsmInitFileContext] makes on its buffer after a fetch
    of [v] amount to [attr_qualifies v]. *)
Lemma validate_fetched (v buf : list byte) :
  Z.of_nat (length buf) = ATTRVAL_SIZE ->
  let B := list_inserts 0 v buf in
  let len := Z.of_nat (length v) in
  attr_qualifies v
  = (u8 (B !!! XFSattrvalue0.fsys) =? FSYS_TYPE_XFS)
    && negb (if u8 (B !!! XFSattrvalue0.version) =? DMF_ATTR_FORMAT_0
             then negb (len =? XFSattrvalue0.sizeof)
             else if u8 (B !!! XFSattrvalue0.version) =? DMF_ATTR_FORMAT_1
                  then len <? MIN_FORMAT1_ATTR_LEN
                  else true)
    && (let state := msb_load B XFSattrvalue0.state 2 in
        (state =? DMF_ST_DUALSTATE) || (state =? DMF_ST_UNMIGRATING)
        || (state =? DMF_ST_PARTIAL) || (state =? DMF_ST_OFFLINE)).
Proof.
  intros Hbuf B len. unfold ATTRVAL_SIZE in Hbuf.
  unfold XFSattrvalue0.fsys, XFSattrvalue0.version, XFSattrvalue0.state,
    XFSattrvalue0.sizeof, MIN_FORMAT1_ATTR_LEN, XFSattrvalue1.sizeof,
    XFSattrregion.sizeof, FSYS_TYPE_XFS, DMF_ATTR_FORMAT_0,
    DMF_ATTR_FORMAT_1, DMF_ST_DUALSTATE, DMF_ST_UNMIGRATING, DMF_ST_PARTIAL,
    DMF_ST_OFFLINE.
  cbv zeta. rewrite msb_load_2.
  unfold attr_qualifies, fsys_supported, format_and_length_ok,
    state_projectable, global_state, attr_byte.
  destruct v as [|f [|ver [|s1 [|s0 v']]]].
  1-4: assert (Hlen : 0 <= len < 4) by (subst len; simpl length; lia);
       clearbody len B;
       cbn [lookup list_lookup fmap option_fmap option_map];
       case_Z_tests; simpl; rewrite ?andb_false_r; try reflexivity; lia.
  assert (H0 : B !!! 0%nat = f)
    by (subst B; rewrite fetched_lookup_total by (simpl; lia); reflexivity).
  assert (H1 : B !!! 1%nat = ver)
    by (subst B; rewrite fetched_lookup_total by (simpl; lia); reflexivity).
  assert (H2 : B !!! 2%nat = s1)
    by (subst B; rewrite fetched_lookup_total by (simpl; lia); reflexivity).
  assert (H3 : B !!! (2 + 1)%nat = s0)
    by (subst B; rewrite fetched_lookup_total by (simpl; lia); reflexivity).
  rewrite H0, H1, H2, H3.
  fold len. clearbody len B.
  cbn [lookup list_lookup fmap option_fmap option_map].
  generalize (u8 s1 * 256 + u8 s0). intros st.
  case_Z_tests; simpl; try reflexivity; lia.
Qed.

Section Classification.
Context `{Headers} `{Collaborators}.

(** The return value is always 0. *)
Lemma HsmInitFileContext_returns_0 (c : dmf_f_ctxt_t) (statp : xfs_bstat_t)
  (t : list call) :
  fst (fst (HsmInitFileContext c statp t)) = 0.
Proof.
  unfold HsmInitFileContext. run_sys.
  repeat (first [ reflexivity | case_if
                | destruct (make_handle _ _ _) as [rc hanp]; cbv beta iota zeta ]).
Qed.

(** The calls made depend on the filesystem context and the metadata
    only. *)
Lemma HsmInitFileContext_calls (c c' : dmf_f_ctxt_t) (statp : xfs_bstat_t)
  (t : list call) :
  fsys c = fsys c' ->
  snd (HsmInitFileContext c statp t) = snd (HsmInitFileContext c' statp t).
Proof.
  intros Hfs. unfold HsmInitFileContext. run_sys.
  do 3 (case_if; [reflexivity|]).
  cbn [fsys with_candidate]. rewrite Hfs.
  destruct (make_handle _ _ _) as [rc hanp]; cbv beta iota zeta.
  repeat (first [ reflexivity | case_if ]).
Qed.

(** The context after a successful fetch of [v]. *)
Lemma HsmInitFileContext_fetched (c : dmf_f_ctxt_t) (statp : xfs_bstat_t)
  (t : list call) (hanp : handle) :
  wf_ctxt c ->
  likely_candidate statp = true ->
  make_handle (fsid (fsys c)) (bs_ino statp) (bs_gen statp) = (0, hanp) ->
  ar_error (attr_multi hanp dmf_attr_get) = 0 ->
  ar_am_error (attr_multi hanp dmf_attr_get) = 0 ->
  snd (fst (HsmInitFileContext c statp t))
  = let v := ar_value (attr_multi hanp dmf_attr_get) in
    let c2 := with_attrlen
                (with_attrval (with_candidate c 0)
                   (list_inserts 0 v (attrval c)))
                (Z.of_nat (length v)) in
    if attr_qualifies v
    then with_filesize (with_candidate c2 1) (bs_size statp)
    else c2.
Proof.
  intros Hwf Hquick Hmk Herr Hamerr.
  cbv zeta. rewrite (validate_fetched _ (attrval c) Hwf). cbv zeta.
  unfold likely_candidate in Hquick.
  apply andb_true_iff in Hquick as [Hquick Hev].
  apply andb_true_iff in Hquick as [Hreg Hattr].
  apply negb_true_iff in Hev, Hattr.
  unfold HsmInitFileContext. run_sys.
  rewrite Hreg, Hattr, Hev. cbn [negb fsys with_candidate].
  rewrite Hmk. cbv beta iota zeta. change (0 =? 0) with true.
  cbn [negb]. fold dmf_attr_get.
  rewrite Herr, Hamerr. change (0 =? 0) with true. cbn [negb orb].
  cbn [attrval attrlen with_attrval with_attrlen with_candidate].
  repeat match goal with
    | |- context [Z.eqb ?a ?b] => destruct (Z.eqb a b)
    | |- context [Z.ltb ?a ?b] => destruct (Z.ltb a b)
    end; reflexivity.
Qed.

(** What a call leaves in [candidate] and [filesize], in terms of
    [eligible]. *)
Lemma HsmInitFileContext_eligible (c : dmf_f_ctxt_t) (statp : xfs_bstat_t)
  (t : list call) :
  wf_ctxt c ->
  let c' := snd (fst (HsmInitFileContext c statp t)) in
  if eligible (fsys c) statp
  then candidate c' = 1 /\ filesize c' = bs_size statp
  else candidate c' = 0 /\ filesize c' = filesize c.
Proof.
  intros Hwf. cbv zeta. unfold eligible.
  destruct (likely_candidate statp) eqn:Hquick; cbn [andb].
  - destruct (make_handle (fsid (fsys c)) (bs_ino statp) (bs_gen statp))
      as [rc hanp] eqn:Hmk.
    destruct (Z.eqb_spec rc 0) as [->|Hrc]; cbn [andb].
    + destruct (Z.eqb_spec (ar_error (attr_multi hanp dmf_attr_get)) 0)
        as [Herr|Herr]; cbn [andb].
      * destruct (Z.eqb_spec (ar_am_error (attr_multi hanp dmf_attr_get)) 0)
          as [Hamerr|Hamerr]; cbn [andb].
        -- rewrite (HsmInitFileContext_fetched c statp t hanp) by assumption.
           cbv zeta. destruct (attr_qualifies _); split; reflexivity.
        -- apply Z.eqb_neq in Hamerr.
           unfold HsmInitFileContext, likely_candidate in *. run_sys.
           repeat (case_if; [split; reflexivity|]).
           cbn [fsys with_candidate]. rewrite Hmk. cbv beta iota zeta.
           change (0 =? 0) with true. cbn [negb]. fold dmf_attr_get.
           rewrite Hamerr, orb_true_r. split; reflexivity.
      * apply Z.eqb_neq in Herr.
        unfold HsmInitFileContext, likely_candidate in *. run_sys.
        repeat (case_if; [split; reflexivity|]).
        cbn [fsys with_candidate]. rewrite Hmk. cbv beta iota zeta.
        change (0 =? 0) with true. cbn [negb]. fold dmf_attr_get.
        rewrite Herr. split; reflexivity.
    + apply Z.eqb_neq in Hrc.
      unfold HsmInitFileContext, likely_candidate in *. run_sys.
      repeat (case_if; [split; reflexivity|]).
      cbn [fsys with_candidate]. rewrite Hmk. cbv beta iota zeta.
      rewrite Hrc. split; reflexivity.
  - unfold likely_candidate in Hquick. unfold HsmInitFileContext. run_sys.
    destruct (Z.land (bs_mode statp) S_IFMT =? S_IFREG) eqn:Hreg;
      cbn [negb]; [|split; reflexivity].
    destruct (Z.land (bs_xflags statp) XFS_XFLAG_HASATTR =? 0) eqn:Hattr;
      [split; reflexivity|].
    destruct (Z.land (bs_dmevmask statp) DMF_EV_BITS =? 0) eqn:Hev;
      [split; reflexivity|].
    discriminate Hquick.
Qed.

End Classification.

(** ** The claims about classification *)

(** C1. With the three quick tests passed, the handle made and the fetch
    successful with value [v], [HsmInitFileContext] sets [candidate] to 1
    and [filesize] to [bs_size] exactly when [v] has the supported
    filesystem type, format 0 with length 22 or format 1 with length at
    least 48, and a global state among 2, 3, 4 and 6; if any of the three
    fails, [candidate] is 0. *)
Theorem HsmInitFileContext_candidate_iff `{Headers} `{Collaborators}
  (c : dmf_f_ctxt_t) (statp : xfs_bstat_t) (t : list call) (hanp : handle)
  (v : list byte) :
  wf_ctxt c ->
  likely_candidate statp = true ->
  make_handle (fsid (fsys c)) (bs_ino statp) (bs_gen statp) = (0, hanp) ->
  attr_multi hanp dmf_attr_get
  = {| ar_error := 0; ar_am_error := 0; ar_value := v |} ->
  let c' := snd (fst (HsmInitFileContext c statp t)) in
  (candidate c' = 1 /\ filesize c' = bs_size statp
   <-> fsys_supported v = true /\ format_and_length_ok v = true
       /\ state_projectable v = true)
  /\ (fsys_supported v = false \/ format_and_length_ok v = false
      \/ state_projectable v = false -> candidate c' = 0).
Proof.
  intros Hwf Hquick Hmk Hreply. cbv zeta.
  rewrite (HsmInitFileContext_fetched c statp t hanp Hwf Hquick Hmk)
    by (rewrite Hreply; reflexivity).
  rewrite Hreply. cbn [ar_value]. unfold attr_qualifies.
  destruct (fsys_supported v), (format_and_length_ok v),
    (state_projectable v); cbn [andb candidate filesize with_filesize
      with_candidate with_attrlen with_attrval];
    (split; [split; [intros [? ?]; try discriminate; auto
                    | intros (? & ? & ?); try discriminate; auto]
            | intros [?|[?|?]]; try discriminate; reflexivity]).
Qed.

Lemma HsmInitFileContext_candidate_iff_witness :
  candidate
    (snd (fst (@HsmInitFileContext linux_headers (fetch_ok format0_attr)
                 stale_ctxt sample_bstat [])))
  = 1.
Proof.
  apply (@HsmInitFileContext_candidate_iff linux_headers
           (fetch_ok format0_attr) stale_ctxt sample_bstat [] [x2a]
           format0_attr);
    [ vm_compute; reflexivity | reflexivity | reflexivity | reflexivity
    | repeat split; reflexivity ].
Defined.

(** C4. When the file is not regular, or may not have attributes, or has
    none of the four DMF event bits, [HsmInitFileContext] leaves
    [candidate] at 0 and makes no call to a collaborator: no handle is made
    and no attribute is fetched. *)
Theorem HsmInitFileContext_quick_reject `{Headers} `{Collaborators}
  (c : dmf_f_ctxt_t) (statp : xfs_bstat_t) (t : list call) :
  Z.land (bs_mode statp) S_IFMT <> S_IFREG
  \/ Z.land (bs_xflags statp) XFS_XFLAG_HASATTR = 0
  \/ Z.land (bs_dmevmask statp) DMF_EV_BITS = 0 ->
  candidate (snd (fst (HsmInitFileContext c statp t))) = 0
  /\ snd (HsmInitFileContext c statp t) = t.
Proof.
  intros Hrej. unfold HsmInitFileContext. run_sys.
  destruct (Z.eqb_spec (Z.land (bs_mode statp) S_IFMT) S_IFREG) as [Hreg|Hreg];
    cbn [negb]; [|split; reflexivity].
  destruct (Z.eqb_spec (Z.land (bs_xflags statp) XFS_XFLAG_HASATTR) 0)
    as [Hattr|Hattr]; [split; reflexivity|].
  destruct (Z.eqb_spec (Z.land (bs_dmevmask statp) DMF_EV_BITS) 0)
    as [Hev|Hev]; [split; reflexivity|].
  destruct Hrej as [?|[?|?]]; contradiction.
Qed.

Lemma HsmInitFileContext_quick_reject_witness :
  candidate
    (snd (fst (@HsmInitFileContext linux_headers (fetch_ok format0_attr)
                 stale_ctxt directory_bstat [])))
  = 0
  /\ snd (@HsmInitFileContext linux_headers (fetch_ok format0_attr)
            stale_ctxt directory_bstat [])
     = [].
Proof.
  apply (@HsmInitFileContext_quick_reject linux_headers
           (fetch_ok format0_attr) stale_ctxt directory_bstat []).
  left. vm_compute. discriminate.
Defined.

(** C9. Whatever step disqualifies the file (the quick tests, the making of
    the handle, the fetch, the filesystem type, the format and length, or
    the state), [candidate] is 0 when [HsmInitFileContext] returns, whatever
    it was before. *)
Theorem HsmInitFileContext_disqualified `{Headers} `{Collaborators}
  (c : dmf_f_ctxt_t) (statp : xfs_bstat_t) (t : list call) :
  wf_ctxt c ->
  likely_candidate statp = false
  \/ fst (make_handle (fsid (fsys c)) (bs_ino statp) (bs_gen statp)) <> 0
  \/ (let hanp :=
        snd (make_handle (fsid (fsys c)) (bs_ino statp) (bs_gen statp)) in
      let reply := attr_multi hanp dmf_attr_get in
      ar_error reply <> 0 \/ ar_am_error reply <> 0
      \/ fsys_supported (ar_value reply) = false
      \/ format_and_length_ok (ar_value reply) = false
      \/ state_projectable (ar_value reply) = false) ->
  candidate (snd (fst (HsmInitFileContext c statp t))) = 0.
Proof.
  intros Hwf Hdis.
  pose proof (HsmInitFileContext_eligible c statp t Hwf) as Hel.
  cbv zeta in Hel.
  assert (Hno : eligible (fsys c) statp = false).
  { unfold eligible, attr_qualifies.
    destruct (make_handle (fsid (fsys c)) (bs_ino statp) (bs_gen statp))
      as [rc hanp].
    cbn [fst snd] in Hdis. cbv zeta in Hdis.
    destruct Hdis as [->|[Hrc|[Herr|[Herr|[Hv|[Hv|Hv]]]]]].
    - reflexivity.
    - apply Z.eqb_neq in Hrc. rewrite Hrc. apply andb_false_r.
    - apply Z.eqb_neq in Herr. rewrite Herr.
      cbn [andb]. rewrite andb_false_r. apply andb_false_r.
    - apply Z.eqb_neq in Herr. rewrite Herr.
      rewrite andb_false_r. cbn [andb]. rewrite andb_false_r.
      apply andb_false_r.
    - rewrite Hv. cbn [andb]. rewrite !andb_false_r. reflexivity.
    - rewrite Hv. rewrite !andb_false_r. reflexivity.
    - rewrite Hv. rewrite !andb_false_r. reflexivity. }
  rewrite Hno in Hel. apply Hel.
Qed.

Lemma HsmInitFileContext_disqualified_witness :
  candidate
    (snd (fst (@HsmInitFileContext linux_headers
                 (fetch_ok [x01; x00; x00; x03]) stale_ctxt sample_bstat [])))
  = 0.
Proof.
  apply (@HsmInitFileContext_disqualified linux_headers
           (fetch_ok [x01; x00; x00; x03]) stale_ctxt sample_bstat []).
  - vm_compute. reflexivity.
  - right. right. cbv zeta. right. right. right. left. reflexivity.
Defined.

(** C10. [HsmInitFileContext] returns 0 on every path; the nonzero return
    of its header comment is never produced. *)
Theorem HsmInitFileContext_always_0 `{Headers} `{Collaborators}
  (c : dmf_f_ctxt_t) (statp : xfs_bstat_t) (t : list call) :
  fst (fst (HsmInitFileContext c statp t)) = 0.
Proof. apply HsmInitFileContext_returns_0. Qed.

(** C6. [HsmEstimateFileOffset], with its local context in any initial
    state, gives the result and makes the calls of the explicit sequence
    allocate, classify, query on a freshly allocated context in any initial
    state: return 1 with [bs_size] as the offset when the file is a
    candidate, whatever [bytecount] is, and return 0 with no offset
    otherwise. *)
Theorem HsmEstimateFileOffset_refines_explicit `{Headers} `{Collaborators}
  (stack heap : dmf_f_ctxt_t) (contextp : dmf_fs_ctxt_t)
  (statp : xfs_bstat_t) (bytecount : Z) (t : list call) :
  wf_ctxt stack -> wf_ctxt heap ->
  HsmEstimateFileOffset stack contextp statp bytecount t
  = estimate_with_explicit_context (Some heap) contextp statp bytecount t
  /\ fst (HsmEstimateFileOffset stack contextp statp bytecount t)
     = if eligible contextp statp
       then (1, Some (bs_size statp))
       else (0, None).
Proof.
  intros Hstack Hheap.
  unfold HsmEstimateFileOffset, estimate_with_explicit_context,
    HsmAllocateFileContext.
  set (c1 := with_candidate (with_fsys stack contextp) 0).
  set (c2 := with_candidate (with_fsys heap contextp) 0).
  assert (Hwf1 : wf_ctxt c1) by exact Hstack.
  assert (Hwf2 : wf_ctxt c2) by exact Hheap.
  pose proof (HsmInitFileContext_returns_0 c1 statp t) as Hrc1.
  pose proof (HsmInitFileContext_returns_0 c2 statp t) as Hrc2.
  pose proof (HsmInitFileContext_calls c1 c2 statp t eq_refl) as Hcalls.
  pose proof (HsmInitFileContext_eligible c1 statp t Hwf1) as Hel1.
  pose proof (HsmInitFileContext_eligible c2 statp t Hwf2) as Hel2.
  cbv zeta in Hel1, Hel2.
  change (fsys c1) with contextp in Hel1.
  change (fsys c2) with contextp in Hel2.
  unfold bind, ret.
  destruct (HsmInitFileContext c1 statp t) as [[rc1 c1'] t1].
  destruct (HsmInitFileContext c2 statp t) as [[rc2 c2'] t2].
  cbn [fst snd] in *. subst rc1 rc2 t2.
  change (0 =? 0) with true. cbn [negb andb].
  destruct (eligible contextp statp).
  - destruct Hel1 as [Hc1 _], Hel2 as [Hc2 Hsz2].
    rewrite Hc1, Hc2, Hsz2. split; reflexivity.
  - destruct Hel1 as [Hc1 _], Hel2 as [Hc2 _].
    rewrite Hc1, Hc2. split; reflexivity.
Qed.

Lemma HsmEstimateFileOffset_refines_explicit_witness :
  @HsmEstimateFileOffset linux_headers (fetch_ok format0_attr)
    stale_ctxt sample_fs_ctxt sample_bstat 512 []
  = @estimate_with_explicit_context linux_headers (fetch_ok format0_attr)
      (Some sample_ctxt) sample_fs_ctxt sample_bstat 512 [].
Proof.
  apply (@HsmEstimateFileOffset_refines_explicit linux_headers
           (fetch_ok format0_attr) stale_ctxt sample_ctxt sample_fs_ctxt
           sample_bstat 512 []);
    vm_compute; reflexivity.
Defined.

(** ** The extent map *)

Lemma BTOBB_exact `{Headers} (bytes : Z) :
  0 <= BBSHIFT <= 62 -> 0 <= bytes < 2 ^ 63 ->
  BTOBB bytes = (bytes + 2 ^ BBSHIFT - 1) / 2 ^ BBSHIFT
  /\ 0 <= BTOBB bytes < 2 ^ 63.
Proof.
  intros Hsh Hb. unfold BTOBB.
  assert (Hp : 0 < 2 ^ BBSHIFT <= 2 ^ 62).
  { split; [apply Z.pow_pos_nonneg; lia | apply Z.pow_le_mono_r; lia]. }
  rewrite Z.shiftl_1_l.
  rewrite (to_u64_small bytes) by lia.
  rewrite (to_u64_small (bytes + _)) by lia.
  rewrite to_u64_small by lia.
  rewrite Z.shiftr_div_pow2 by lia.
  split; [reflexivity|].
  split.
  - apply Z.div_pos; lia.
  - apply Z.div_lt_upper_bound; nia.
Qed.

(** C2. On an array of at least two entries: with a positive count in
    [bmap[0]] and a candidate context, [HsmModifyExtentMap] takes
    [length = BTOBB(filesize) - bmap[1].bmv_offset] (as an [__int64_t]);
    if it is positive, [bmv_entries] of entry 0 becomes 1 and entry 1
    becomes a hole, [bmv_block = -1] and [bmv_length = length], with its
    offset and every other field kept; else [bmv_entries] of entry 0
    becomes 0 and entry 1 is kept.  With a count of zero or less, or a
    context that is not a candidate, the array is left as it is.  The
    return value is always 1.  For sizes and offsets that are not negative,
    [length] is the file size in basic blocks, rounded up, minus the
    offset. *)
Theorem HsmModifyExtentMap_spec `{Headers} (c : dmf_f_ctxt_t)
  (b0 b1 : getbmapx) (rest : list getbmapx) :
  let bmap := b0 :: b1 :: rest in
  let remaining := to_s64 (BTOBB (filesize c) - bmv_offset b1) in
  let r := HsmModifyExtentMap c bmap in
  fst r = 1
  /\ (0 < bmv_entries b0 -> candidate c <> 0 -> 0 < remaining ->
      bmv_entries (snd r !!! 0%nat) = 1
      /\ bmv_block (snd r !!! 1%nat) = -1
      /\ bmv_length (snd r !!! 1%nat) = remaining
      /\ bmv_offset (snd r !!! 1%nat) = bmv_offset b1
      /\ snd r
         = {| bmv_offset := bmv_offset b0; bmv_block := bmv_block b0;
              bmv_length := bmv_length b0; bmv_count := bmv_count b0;
              bmv_entries := 1; bmv_iflags := bmv_iflags b0;
              bmv_oflags := bmv_oflags b0 |}
           :: {| bmv_offset := bmv_offset b1; bmv_block := -1;
                 bmv_length := remaining; bmv_count := bmv_count b1;
                 bmv_entries := bmv_entries b1;
                 bmv_iflags := bmv_iflags b1;
                 bmv_oflags := bmv_oflags b1 |}
           :: rest)
  /\ (0 < bmv_entries b0 -> candidate c <> 0 -> remaining <= 0 ->
      bmv_entries (snd r !!! 0%nat) = 0
      /\ snd r
         = {| bmv_offset := bmv_offset b0; bmv_block := bmv_block b0;
              bmv_length := bmv_length b0; bmv_count := bmv_count b0;
              bmv_entries := 0; bmv_iflags := bmv_iflags b0;
              bmv_oflags := bmv_oflags b0 |}
           :: b1 :: rest)
  /\ (bmv_entries b0 <= 0 \/ candidate c = 0 -> snd r = bmap)
  /\ (0 <= BBSHIFT <= 62 -> 0 <= filesize c < 2 ^ 63 ->
      0 <= bmv_offset b1 < 2 ^ 63 ->
      remaining
      = (filesize c + 2 ^ BBSHIFT - 1) / 2 ^ BBSHIFT - bmv_offset b1).
Proof.
  cbv zeta. unfold HsmModifyExtentMap.
  rewrite to_s64_to_u64.
  change ((b0 :: b1 :: rest) !!! 0%nat) with b0.
  change ((b0 :: b1 :: rest) !!! 1%nat) with b1.
  set (remaining := to_s64 (BTOBB (filesize c) - bmv_offset b1)).
  split; [|split; [|split; [|split]]].
  - repeat case_if; reflexivity.
  - intros Hn Hc Hr.
    destruct (Z.leb_spec (bmv_entries b0) 0); [lia|].
    destruct (Z.eqb_spec (candidate c) 0); [contradiction|].
    destruct (Z.ltb_spec 0 remaining); [|lia].
    repeat split; reflexivity.
  - intros Hn Hc Hr.
    destruct (Z.leb_spec (bmv_entries b0) 0); [lia|].
    destruct (Z.eqb_spec (candidate c) 0); [contradiction|].
    destruct (Z.ltb_spec 0 remaining); [lia|].
    split; reflexivity.
  - intros Hskip.
    destruct (Z.leb_spec (bmv_entries b0) 0); [reflexivity|].
    destruct (Z.eqb_spec (candidate c) 0); [reflexivity|].
    destruct Hskip; [lia|contradiction].
  - intros Hsh Hsz Hoff. subst remaining.
    destruct (BTOBB_exact (filesize c) Hsh Hsz) as [-> Hrange].
    apply to_s64_small. lia.
Qed.

Lemma HsmModifyExtentMap_spec_witness :
  bmv_entries
    (snd (@HsmModifyExtentMap linux_headers stale_ctxt dense_bmap) !!! 0%nat)
  = 1
  /\ bmv_block
       (snd (@HsmModifyExtentMap linux_headers stale_ctxt dense_bmap)
        !!! 1%nat)
     = -1
  /\ bmv_length
       (snd (@HsmModifyExtentMap linux_headers stale_ctxt dense_bmap)
        !!! 1%nat)
     = 1.
Proof.
  assert (Hn : 0 < bmv_entries (dense_bmap !!! 0%nat))
    by (vm_compute; reflexivity).
  assert (Hc : candidate stale_ctxt <> 0) by (vm_compute; discriminate).
  assert (Hr : 0 < to_s64 (@BTOBB linux_headers (filesize stale_ctxt)
                           - bmv_offset (dense_bmap !!! 1%nat)))
    by (vm_compute; reflexivity).
  destruct (@HsmModifyExtentMap_spec linux_headers stale_ctxt
              (dense_bmap !!! 0%nat) (dense_bmap !!! 1%nat)
              (drop 2 dense_bmap))
    as (_ & Hhole & _).
  destruct (Hhole Hn Hc Hr) as (He & Hb & Hl & _).
  split; [exact He | split; [exact Hb | exact Hl]].
Defined.

(** ** The managed attribute in the dump *)

(** C5, as the code has it.  For a candidate context, the DMF attribute
    name, the root flag and a size below the 22 bytes of the format 0
    header, [HsmFilterExistingAttribute] returns 0 (the attribute is
    corrupt) and leaves [*skip_entry] at 0.  For a context that is not a
    candidate it returns 1 with [*skip_entry] at 0, whatever the name, the
    flag and the size. *)
Theorem HsmFilterExistingAttribute_corrupt `{Headers} (c : dmf_f_ctxt_t)
  (name : string) (valuesz flag : Z) :
  (candidate c <> 0 -> name = DMF_ATTR_NAME -> flag = ATTR_ROOT ->
   valuesz < XFSattrvalue0.sizeof ->
   HsmFilterExistingAttribute c name valuesz flag = (0, 0))
  /\ (candidate c = 0 ->
      HsmFilterExistingAttribute c name valuesz flag = (1, 0)).
Proof.
  unfold HsmFilterExistingAttribute. split.
  - intros Hc -> -> Hsz.
    destruct (Z.eqb_spec (candidate c) 0); [contradiction|].
    rewrite Z.eqb_refl. cbn [negb].
    change (strcmp DMF_ATTR_NAME DMF_ATTR_NAME =? 0) with true. cbn [negb].
    destruct (Z.ltb_spec valuesz XFSattrvalue0.sizeof); [reflexivity|lia].
  - intros ->. reflexivity.
Qed.

Lemma HsmFilterExistingAttribute_corrupt_witness :
  @HsmFilterExistingAttribute linux_headers stale_ctxt DMF_ATTR_NAME 10 2
  = (0, 0).
Proof.
  apply (@HsmFilterExistingAttribute_corrupt linux_headers stale_ctxt
           DMF_ATTR_NAME 10 2);
    [ vm_compute; discriminate | reflexivity | reflexivity
    | vm_compute; reflexivity ].
Defined.

(** A context that is not a candidate: the DMF name, the root flag and a
    size of 10 bytes give success with [*skip_entry] at 0, not a failure. *)
Lemma HsmFilterExistingAttribute_short_not_candidate :
  candidate sample_ctxt = 0
  /\ 10 < XFSattrvalue0.sizeof
  /\ @HsmFilterExistingAttribute linux_headers sample_ctxt DMF_ATTR_NAME 10
       (@ATTR_ROOT linux_headers)
     = (1, 0).
Proof. repeat split. Qed.

Ltac frame_side :=
  repeat first [rewrite length_msb_store | rewrite length_insert];
  simpl; lia.

Ltac frame :=
  repeat first
    [ rewrite msb_load_take by frame_side
    | rewrite msb_load_msb_store_other by frame_side
    | rewrite msb_load_insert_other by frame_side
    | rewrite lookup_total_take_lt by frame_side
    | rewrite msb_store_outside by frame_side
    | rewrite list_lookup_total_insert_ne by frame_side ].

(** C3. For a candidate context, cursor 0 and the root flag,
    [HsmAddNewAttribute] returns 1 with the DMF attribute name and a value
    whose global state is offline (3).  When the buffer holds a format 1
    attribute with a site tag that is not zero, the value has the 48 bytes
    of the format 1 header and one region, its version is 1, its region
    count is 1 and its region has offset 0, the file size as its size (as
    an unsigned 64-bit number), state 3, event flags 7 and flag bits 0.
    Otherwise the value has the 22 bytes of format 0 and its version is
    0. *)
Theorem HsmAddNewAttribute_value `{Headers} (c : dmf_f_ctxt_t) :
  wf_ctxt c -> candidate c <> 0 ->
  let format1 :=
    u8 (attrval c !!! XFSattrvalue1.version) = DMF_ATTR_FORMAT_1
    /\ msb_load (attrval c) XFSattrvalue1.sitetag 4 <> 0 in
  let reg := 28%nat in
  let '(rc, a, c') := HsmAddNewAttribute c 0 ATTR_ROOT in
  rc = 1 /\ namep a = Some DMF_ATTR_NAME
  /\ exists v : list byte,
      attribute_value c' a = Some v
      /\ msb_load v XFSattrvalue1.state 2 = DMF_ST_OFFLINE
      /\ (format1 ->
          valuesz a = Some MIN_FORMAT1_ATTR_LEN
          /\ Z.of_nat (length v) = MIN_FORMAT1_ATTR_LEN
          /\ u8 (v !!! XFSattrvalue1.version) = DMF_ATTR_FORMAT_1
          /\ msb_load v XFSattrvalue1.regcnt 2 = 1
          /\ msb_load v (reg + XFSattrregion.rg_offset) 8 = 0
          /\ msb_load v (reg + XFSattrregion.rg_size) 8
             = to_u64 (filesize c)
          /\ (0 <= filesize c < 2 ^ 64 ->
              msb_load v (reg + XFSattrregion.rg_size) 8 = filesize c)
          /\ msb_load v (reg + XFSattrregion.rg_state) 2 = DMF_ST_OFFLINE
          /\ u8 (v !!! (reg + XFSattrregion.rg_flags)%nat) = DMF_MR_FLAGS
          /\ u8 (v !!! (reg + XFSattrregion.rg_fbits)%nat) = 0)
      /\ (~ format1 ->
          valuesz a = Some XFSattrvalue0.sizeof
          /\ Z.of_nat (length v) = XFSattrvalue0.sizeof
          /\ u8 (v !!! XFSattrvalue1.version) = DMF_ATTR_FORMAT_0).
Proof.
  intros Hwf Hcand. cbv zeta.
  unfold wf_ctxt, ATTRVAL_SIZE in Hwf.
  unfold HsmAddNewAttribute.
  destruct (Z.eqb_spec (candidate c) 0) as [|_]; [contradiction|].
  rewrite Z.eqb_refl. cbn [negb]. change (0 <? 0) with false. cbv iota.
  unfold XFSattrvalue1.version, XFSattrvalue1.sitetag, XFSattrvalue1.regcnt,
    XFSattrvalue1.state, XFSattrvalue1.sizeof, XFSattrregion.rg_offset,
    XFSattrregion.rg_size, XFSattrregion.rg_state, XFSattrregion.rg_flags,
    XFSattrregion.rg_fbits, XFSattrregion.sizeof, XFSattrvalue0.sizeof,
    MIN_FORMAT1_ATTR_LEN, DMF_ATTR_FORMAT_0, DMF_ATTR_FORMAT_1,
    DMF_ST_OFFLINE.
  change (Z.to_nat 28) with 28%nat.
  destruct (Z.eqb_spec (u8 (attrval c !!! 1%nat)) 1) as [Hver|Hver];
    [destruct (Z.eqb_spec (msb_load (attrval c) 22 4) 0) as [Htag|Htag]|];
    cbn [andb negb]; cbv zeta;
    cbn [attrval attrlen filesize with_attrval with_attrlen];
    (split; [reflexivity|]); (split; [reflexivity|]);
    unfold attribute_value; cbn [valuep valuesz attrval];
    eexists; (split; [reflexivity|]);
    cbn [attrval attrlen filesize with_attrval with_attrlen];
    unfold XFSattrvalue1.sizeof, XFSattrregion.sizeof.
  - (* format 1, site tag 0: a format 0 value *)
    change (Z.to_nat 22) with 22%nat.
    split; [|split; [intros [_ Hne]; contradiction|intros _]].
    + frame. rewrite msb_load_msb_store by frame_side. reflexivity.
    + split; [reflexivity|]. split.
      * rewrite length_take, length_msb_store, length_insert. lia.
      * frame. rewrite list_lookup_total_insert_eq by lia. reflexivity.
  - (* format 1, site tag not 0: a format 1 value *)
    change (Z.to_nat (28 + 20)) with 48%nat.
    split; [|split; [intros _|intros Hno; exfalso; apply Hno; auto]].
    + frame. rewrite msb_load_msb_store by frame_side. reflexivity.
    + split; [reflexivity|]. split.
      { rewrite length_take, length_msb_store, !length_insert,
          !length_msb_store. lia. }
      split.
      { frame. exact Hver. }
      assert (Hsize :
        msb_load
          (take 48
             (msb_store
                (<[(28 + 19)%nat := to_u8 0]>
                   (<[(28 + 18)%nat := to_u8 DMF_MR_FLAGS]>
                      (msb_store
                         (msb_store
                            (msb_store (msb_store (attrval c) 26 1 2)
                               (28 + 0) 0 8)
                            (28 + 8) (filesize c) 8)
                         (28 + 16) 3 2)))
                2 3 2))
          (28 + 8) 8
        = to_u64 (filesize c)).
      { frame. rewrite msb_load_msb_store by frame_side.
        change (2 ^ (8 * 8)) with (2 ^ 64). unfold to_u64.
        apply Z.mod_mod. lia. }
      repeat split.
      * frame. rewrite msb_load_msb_store by frame_side. reflexivity.
      * frame. rewrite msb_load_msb_store by frame_side. reflexivity.
      * exact Hsize.
      * intros Hfs. rewrite Hsize. apply to_u64_small. exact Hfs.
      * frame. rewrite msb_load_msb_store by frame_side. reflexivity.
      * frame. rewrite list_lookup_total_insert_eq by frame_side.
        reflexivity.
      * frame. rewrite list_lookup_total_insert_eq by frame_side.
        reflexivity.
  - (* not format 1: a format 0 value *)
    change (Z.to_nat 22) with 22%nat.
    split; [|split; [intros [Hv _]; contradiction|intros _]].
    + frame. rewrite msb_load_msb_store by frame_side. reflexivity.
    + split; [reflexivity|]. split.
      * rewrite length_take, length_msb_store, length_insert. lia.
      * frame. rewrite list_lookup_total_insert_eq by lia. reflexivity.
Qed.

Lemma HsmAddNewAttribute_value_witness :
  fst (fst (@HsmAddNewAttribute linux_headers format1_ctxt 0 2)) = 1.
Proof.
  pose proof (@HsmAddNewAttribute_value linux_headers format1_ctxt
                ltac:(vm_compute; reflexivity)
                ltac:(vm_compute; discriminate)) as Hv.
  cbv zeta in Hv.
  change (@ATTR_ROOT linux_headers) with 2 in Hv.
  destruct (@HsmAddNewAttribute linux_headers format1_ctxt 0 2)
    as [[rc a] c'].
  apply Hv.
Defined.

(** ** Writes as overwrites *)

Lemma lookup_overwrite (W : nat -> option byte) (buf : list byte) (k : nat) :
  overwrite W buf !! k = (fun b => default b (W k)) <$> buf !! k.
Proof. apply list_lookup_imap. Qed.

Lemma overwrite_over (W2 W1 : nat -> option byte) (buf : list byte) :
  overwrite W2 (overwrite W1 buf) = overwrite (over W2 W1) buf.
Proof.
  apply list_eq. intros k. rewrite !lookup_overwrite. unfold over.
  destruct (buf !! k); [|reflexivity]. simpl.
  destruct (W2 k); reflexivity.
Qed.

Lemma overwrite_idemp (W : nat -> option byte) (buf : list byte) :
  overwrite W (overwrite W buf) = overwrite W buf.
Proof.
  apply list_eq. intros k. rewrite !lookup_overwrite.
  destruct (buf !! k); [|reflexivity]. simpl.
  destruct (W k); reflexivity.
Qed.

Lemma lookup_total_overwrite_None (W : nat -> option byte) (buf : list byte)
  (k : nat) :
  W k = None -> overwrite W buf !!! k = buf !!! k.
Proof.
  intros HW. rewrite !list_lookup_total_alt, lookup_overwrite, HW.
  destruct (buf !! k); reflexivity.
Qed.

Lemma insert_overwrite (k : nat) (x : byte) (buf : list byte) :
  <[k := x]> buf = overwrite (insert_bytes k x) buf.
Proof.
  apply list_eq. intros j. rewrite lookup_overwrite. unfold insert_bytes.
  destruct (Nat.eqb_spec j k) as [->|Hne].
  - destruct (decide (k < length buf)%nat) as [Hin|Hout].
    + rewrite list_lookup_insert_eq by exact Hin.
      destruct (lookup_lt_is_Some_2 buf k Hin) as [b ->]. reflexivity.
    + rewrite list_insert_ge by lia.
      rewrite (proj2 (lookup_ge_None buf k)) by lia. reflexivity.
  - rewrite list_lookup_insert_ne by congruence.
    destruct (buf !! j); reflexivity.
Qed.

Lemma msb_store_loop_overwrite (n : nat) (buf : list byte) (base : nat)
  (src : Z) :
  msb_store_loop n buf base src = overwrite (store_bytes base n src) buf.
Proof.
  apply list_eq. intros k. rewrite lookup_overwrite. unfold store_bytes.
  destruct (Nat.leb_spec base k) as [Hlo|Hlo];
    [destruct (Nat.ltb_spec k (base + n)) as [Hhi|Hhi]|]; cbn [andb].
  - destruct (decide (k < length buf)%nat) as [Hin|Hout].
    + replace k with (base + (k - base))%nat at 1 by lia.
      rewrite msb_store_loop_inside by lia.
      destruct (lookup_lt_is_Some_2 buf k Hin) as [b ->]. reflexivity.
    + rewrite !(proj2 (lookup_ge_None _ _))
        by (rewrite ?length_msb_store_loop; lia).
      reflexivity.
  - rewrite msb_store_loop_outside by lia.
    destruct (buf !! k); reflexivity.
  - rewrite msb_store_loop_outside by lia.
    destruct (buf !! k); reflexivity.
Qed.

Lemma msb_store_overwrite (buf : list byte) (base : nat) (src len : Z) :
  msb_store buf base src len
  = overwrite (store_bytes base (Z.to_nat len) (to_u64 src)) buf.
Proof. apply msb_store_loop_overwrite. Qed.

(** ** Calling twice *)

Section Again.
Context `{Headers} `{Collaborators}.

(** A second [HsmInitFileContext] for the same file leaves the context as
    the first one left it. *)
Lemma HsmInitFileContext_again (c : dmf_f_ctxt_t) (statp : xfs_bstat_t)
  (t t' : list call) :
  snd (fst (HsmInitFileContext
              (snd (fst (HsmInitFileContext c statp t))) statp t'))
  = snd (fst (HsmInitFileContext c statp t)).
Proof.
  unfold HsmInitFileContext. run_sys.
  destruct (negb (Z.land (bs_mode statp) S_IFMT =? S_IFREG));
    [reflexivity|].
  destruct (Z.land (bs_xflags statp) XFS_XFLAG_HASATTR =? 0);
    [reflexivity|].
  destruct (Z.land (bs_dmevmask statp) DMF_EV_BITS =? 0); [reflexivity|].
  cbn [fsys with_candidate].
  destruct (make_handle (fsid (fsys c)) (bs_ino statp) (bs_gen statp))
    as [rc hanp] eqn:Hmk.
  cbv beta iota zeta.
  destruct (negb (rc =? 0)) eqn:Hrc.
  { cbn [fst snd fsys attrval attrlen with_attrlen with_attrval with_candidate
         with_filesize]. rewrite Hmk. cbv beta iota zeta. rewrite Hrc.
    reflexivity. }
  fold dmf_attr_get.
  set (v := ar_value (attr_multi hanp dmf_attr_get)).
  destruct (negb (ar_error (attr_multi hanp dmf_attr_get) =? 0)
            || negb (ar_am_error (attr_multi hanp dmf_attr_get) =? 0))
    eqn:Herr.
  { cbn [fst snd fsys attrval attrlen with_attrlen with_attrval with_candidate
         with_filesize]. rewrite Hmk. cbv beta iota zeta.
    rewrite Hrc. fold dmf_attr_get. rewrite Herr. fold v.
    cbn [fst snd attrval with_attrval with_candidate].
    rewrite list_inserts_idemp. reflexivity. }
  cbn [attrval attrlen with_attrlen with_attrval with_candidate].
  set (B := list_inserts 0 v (attrval c)).
  destruct (negb (u8 (B !!! XFSattrvalue0.fsys) =? FSYS_TYPE_XFS)) eqn:Hfs.
  { cbn [fst snd fsys attrval attrlen with_attrlen with_attrval with_candidate
         with_filesize]. rewrite Hmk. cbv beta iota zeta.
    rewrite Hrc. fold dmf_attr_get. rewrite Herr. fold v.
    cbn [attrval attrlen with_attrlen with_attrval with_candidate].
    unfold B. rewrite list_inserts_idemp. fold B. rewrite Hfs.
    reflexivity. }
  match goal with
  | |- context [if (if ?a then ?x else ?y) then _ else _] =>
      destruct (if a then x else y) eqn:Hfmt
  end.
  { cbn [fst snd fsys attrval attrlen with_attrlen with_attrval with_candidate
         with_filesize]. rewrite Hmk. cbv beta iota zeta.
    rewrite Hrc. fold dmf_attr_get. rewrite Herr. fold v.
    cbn [attrval attrlen with_attrlen with_attrval with_candidate].
    unfold B. rewrite list_inserts_idemp. fold B. rewrite Hfs, Hfmt.
    reflexivity. }
  match goal with
  | |- context [if ?a || ?b || ?d || ?e then _ else _] =>
      destruct (a || b || d || e) eqn:Hst
  end.
  - cbn [fst snd fsys attrval attrlen with_attrlen with_attrval with_candidate
         with_filesize]. rewrite Hmk.
    cbv beta iota zeta. rewrite Hrc. fold dmf_attr_get. rewrite Herr.
    fold v.
    cbn [attrval attrlen with_attrlen with_attrval with_candidate
           with_filesize].
    unfold B. rewrite list_inserts_idemp. fold B. rewrite Hfs, Hfmt, Hst.
    reflexivity.
  - cbn [fst snd fsys attrval attrlen with_attrlen with_attrval with_candidate
         with_filesize]. rewrite Hmk. cbv beta iota zeta.
    rewrite Hrc. fold dmf_attr_get. rewrite Herr. fold v.
    cbn [attrval attrlen with_attrlen with_attrval with_candidate].
    unfold B. rewrite list_inserts_idemp. fold B. rewrite Hfs, Hfmt, Hst.
    reflexivity.
Qed.

End Again.

Section AddAgain.
Context `{Headers}.

(** What [HsmAddNewAttribute] does once its three guards are passed. *)
Lemma HsmAddNewAttribute_run (c : dmf_f_ctxt_t) (cursor flag : Z) :
  (candidate c =? 0) = false -> negb (flag =? ATTR_ROOT) = false ->
  (0 <? cursor) = false ->
  HsmAddNewAttribute c cursor flag
  = if (u8 (attrval c !!! 1%nat) =? 1)
       && negb (msb_load (attrval c) 22 4 =? 0)
    then (1,
          {| namep := Some DMF_ATTR_NAME; valuep := Some Ptr_attrval;
             valuesz := Some 48 |},
          {| fsys := fsys c; filesize := filesize c;
             candidate := candidate c; attrlen := 48;
             attrval := overwrite (format1_writes (filesize c))
                          (attrval c) |})
    else (1,
          {| namep := Some DMF_ATTR_NAME; valuep := Some Ptr_attrval;
             valuesz := Some 22 |},
          {| fsys := fsys c; filesize := filesize c;
             candidate := candidate c; attrlen := 22;
             attrval := overwrite format0_writes (attrval c) |}).
Proof.
  intros Hc Hflag Hcur. unfold HsmAddNewAttribute.
  rewrite Hc, Hflag, Hcur.
  change XFSattrvalue1.version with 1%nat.
  change XFSattrvalue1.sitetag with 22%nat.
  change DMF_ATTR_FORMAT_1 with 1.
  destruct ((u8 (attrval c !!! 1%nat) =? 1)
            && negb (msb_load (attrval c) 22 4 =? 0));
    cbv zeta;
    cbn [attrval attrlen filesize fsys candidate with_attrval with_attrlen];
    rewrite !msb_store_overwrite, !insert_overwrite, !overwrite_over;
    reflexivity.
Qed.

Lemma format1_writes_version (fs : Z) (buf : list byte) :
  overwrite (format1_writes fs) buf !!! 1%nat = buf !!! 1%nat.
Proof. apply lookup_total_overwrite_None. reflexivity. Qed.

Lemma format1_writes_sitetag (fs : Z) (buf : list byte) :
  msb_load (overwrite (format1_writes fs) buf) 22 4 = msb_load buf 22 4.
Proof.
  apply msb_load_ext. intros j Hj.
  apply lookup_total_overwrite_None.
  change (Z.to_nat 4) with 4%nat in Hj.
  destruct j as [|[|[|[|j]]]]; [reflexivity .. | lia].
Qed.

Lemma format0_writes_version (buf : list byte) :
  overwrite format0_writes buf !!! 1%nat = x00.
Proof.
  rewrite list_lookup_total_alt, lookup_overwrite.
  destruct (buf !! 1%nat); reflexivity.
Qed.

(** A second [HsmAddNewAttribute] with the same cursor and flag returns
    what the first returned and leaves the context as the first left it. *)
Lemma HsmAddNewAttribute_again (c : dmf_f_ctxt_t) (cursor flag : Z) :
  HsmAddNewAttribute (snd (HsmAddNewAttribute c cursor flag)) cursor flag
  = HsmAddNewAttribute c cursor flag.
Proof.
  destruct (candidate c =? 0) eqn:Hc;
    [unfold HsmAddNewAttribute; rewrite Hc; cbn [snd]; rewrite Hc;
     reflexivity|].
  destruct (negb (flag =? ATTR_ROOT)) eqn:Hflag;
    [unfold HsmAddNewAttribute; rewrite Hc, Hflag; cbn [snd];
     rewrite Hc; reflexivity|].
  destruct (0 <? cursor) eqn:Hcur;
    [unfold HsmAddNewAttribute; rewrite Hc, Hflag, Hcur; cbn [snd];
     rewrite Hc; reflexivity|].
  rewrite (HsmAddNewAttribute_run c cursor flag Hc Hflag Hcur).
  destruct ((u8 (attrval c !!! 1%nat) =? 1)
            && negb (msb_load (attrval c) 22 4 =? 0)) eqn:Hfmt; cbn [snd].
  - rewrite HsmAddNewAttribute_run by assumption.
    cbn [attrval fsys filesize candidate].
    rewrite format1_writes_version, format1_writes_sitetag, Hfmt.
    rewrite overwrite_idemp. reflexivity.
  - rewrite HsmAddNewAttribute_run by assumption.
    cbn [attrval fsys filesize candidate].
    rewrite format0_writes_version. change (u8 x00 =? 1) with false.
    cbn [andb]. rewrite overwrite_idemp. reflexivity.
Qed.

(** [HsmAddNewAttribute] does not change what
    [HsmFilterExistingAttribute] answers. *)
Lemma HsmFilterExistingAttribute_after_add (c : dmf_f_ctxt_t)
  (cursor flag : Z) (name : string) (valuesz flag' : Z) :
  HsmFilterExistingAttribute (snd (HsmAddNewAttribute c cursor flag))
    name valuesz flag'
  = HsmFilterExistingAttribute c name valuesz flag'.
Proof.
  assert (Hsame : candidate (snd (HsmAddNewAttribute c cursor flag))
                  = candidate c).
  { unfold HsmAddNewAttribute.
    repeat case_if; reflexivity. }
  unfold HsmFilterExistingAttribute. rewrite Hsame. reflexivity.
Qed.

End AddAgain.

(** C7. A second [HsmInitFileContext] with the same metadata and the same
    answers from the collaborators leaves [candidate] and [filesize] as the
    first did.  A second [HsmAddNewAttribute] with the same cursor and flag
    returns the same value, out-parameters and bytes as the first, which
    rewrote the buffer: the context is the same after both.
    [HsmFilterExistingAttribute] only reads the context, and answers the
    same before and after [HsmAddNewAttribute]. *)
Theorem repeated_calls_agree `{Headers} `{Collaborators} (c : dmf_f_ctxt_t)
  (statp : xfs_bstat_t) (t t' : list call) (cursor flag : Z)
  (name : string) (valuesz flag' : Z) :
  let c1 := snd (fst (HsmInitFileContext c statp t)) in
  let c2 := snd (fst (HsmInitFileContext c1 statp t')) in
  let r1 := HsmAddNewAttribute c cursor flag in
  let r2 := HsmAddNewAttribute (snd r1) cursor flag in
  (candidate c2 = candidate c1 /\ filesize c2 = filesize c1)
  /\ (r2 = r1
      /\ attribute_value (snd r2) (snd (fst r2))
         = attribute_value (snd r1) (snd (fst r1))
      /\ attribute_value (snd r2) (snd (fst r1))
         = attribute_value (snd r1) (snd (fst r1)))
  /\ HsmFilterExistingAttribute (snd r1) name valuesz flag'
     = HsmFilterExistingAttribute c name valuesz flag'.
Proof.
  cbv zeta. rewrite HsmInitFileContext_again, HsmAddNewAttribute_again.
  rewrite HsmFilterExistingAttribute_after_add.
  repeat split.
Qed.

(** * Further properties *)

(** ** The codec *)

Lemma msb_load_step (tmp : Z) (b : byte) :
  0 <= tmp -> (tmp + 1) * 256 <= 2 ^ 64 ->
  Z.lor (to_u64 (Z.shiftl tmp 8)) (u8 b) = tmp * 256 + u8 b.
Proof.
  intros Htmp Hroom. pose proof (u8_range b) as Hb.
  rewrite Z.shiftl_mul_pow2 by lia. change (2 ^ 8) with 256.
  rewrite to_u64_small by lia.
  symmetry. apply Z.add_nocarry_lor.
  replace (tmp * 256) with (Z.shiftl tmp 8)
    by (rewrite Z.shiftl_mul_pow2 by lia; reflexivity).
  apply Z.bits_inj'. intros k Hk. rewrite Z.land_spec, Z.bits_0.
  destruct (Z.lt_ge_cases k 8) as [Hlt|Hge].
  - rewrite (Z.shiftl_spec_low tmp 8 k) by lia. reflexivity.
  - rewrite <- (Z.mod_small (u8 b) (2 ^ 8)) by (change (2 ^ 8) with 256; lia).
    rewrite Z.mod_pow2_bits_high by lia. apply andb_false_r.
Qed.

(** The digits of what [msb_load_loop] returns: above the [n] bytes read
    sits the accumulator, and byte [j] of the buffer is digit [n - 1 - j]
    in base 256. *)
Lemma msb_load_loop_digits (n : nat) (buf : list byte) (base i : nat)
  (tmp : Z) :
  0 <= tmp -> (tmp + 1) * 2 ^ (8 * Z.of_nat n) <= 2 ^ 64 ->
  msb_load_loop n buf base i tmp / 2 ^ (8 * Z.of_nat n) = tmp
  /\ forall j, (j < n)%nat ->
       (msb_load_loop n buf base i tmp / 2 ^ (8 * Z.of_nat (n - 1 - j)))
       mod 256
       = u8 (buf !!! (base + (i + j))%nat).
Proof.
  revert i tmp. induction n as [|n IH]; intros i tmp Htmp Hroom.
  - simpl. split; [apply Z.div_1_r | intros j Hj; lia].
  - cbn [msb_load_loop].
    set (b := buf !!! (base + i)%nat).
    pose proof (u8_range b) as Hb.
    set (p := 2 ^ (8 * Z.of_nat n)) in *.
    assert (Hp : 0 < p) by (apply Z.pow_pos_nonneg; lia).
    assert (HpS : 2 ^ (8 * Z.of_nat (S n)) = p * 256).
    { replace (8 * Z.of_nat (S n)) with (8 * Z.of_nat n + 8) by lia.
      rewrite Z.pow_add_r by lia. reflexivity. }
    rewrite HpS in *.
    rewrite msb_load_step by nia.
    destruct (IH (S i) (tmp * 256 + u8 b) ltac:(lia) ltac:(fold p; nia))
      as [Hhigh Hdig].
    fold p in Hhigh.
    set (R := msb_load_loop n buf base (S i) (tmp * 256 + u8 b)) in *.
    split.
    + rewrite <- Z.div_div by lia. rewrite Hhigh.
      rewrite Z.div_add_l by lia. rewrite Z.div_small by lia. lia.
    + intros j Hj. destruct j as [|j].
      * replace (S n - 1 - 0)%nat with n by lia. fold p. rewrite Hhigh.
        rewrite Z.add_comm, Z.mod_add by lia.
        rewrite Z.mod_small by lia.
        subst b. do 2 f_equal. lia.
      * replace (S n - 1 - S j)%nat with (n - 1 - j)%nat by lia.
        rewrite Hdig by lia. do 2 f_equal. lia.
Qed.

Lemma to_u8_mod (z : Z) : to_u8 (z mod 256) = to_u8 z.
Proof. unfold to_u8. rewrite Z.mod_mod by lia. reflexivity. Qed.

(** X1. [msb_store] keeps the low [8 * w] bits of its argument and drops
    the rest without an error: for a width of 0 to 8 bytes inside the
    buffer, loading what was stored gives the argument modulo [2 ^ (8 * w)],
    whatever the argument is. *)
Theorem msb_store_truncates (buf : list byte) (base : nat) (src w : Z) :
  0 <= w <= 8 -> (base + Z.to_nat w <= length buf)%nat ->
  msb_load (msb_store buf base src w) base w = src mod 2 ^ (8 * w).
Proof.
  intros Hw Hfit. rewrite msb_load_msb_store by assumption.
  unfold to_u64. apply Z.mod_mod_divide.
  exists (2 ^ (64 - 8 * w)).
  rewrite <- Z.pow_add_r by lia. f_equal. lia.
Qed.

Lemma msb_store_truncates_witness :
  msb_load (msb_store (repeat x00 4) 1 66051 2) 1 2 = 66051 mod 2 ^ (8 * 2).
Proof.
  apply msb_store_truncates; [lia | simpl; lia].
Defined.

Lemma msb_load_range (buf : list byte) (base : nat) (w : Z) :
  0 <= w <= 8 -> 0 <= msb_load buf base w < 2 ^ (8 * w).
Proof.
  intros Hw. unfold msb_load.
  assert (Hpow : 2 ^ (8 * Z.of_nat (Z.to_nat w)) <= 2 ^ 64).
  { change 64 with (8 * 8). apply Z.pow_le_mono_r; lia. }
  destruct (msb_load_loop_digits (Z.to_nat w) buf base 0 0
              ltac:(lia) ltac:(lia)) as [Hhigh _].
  rewrite Z2Nat.id in Hhigh by lia.
  apply Z.div_small_iff in Hhigh.
  - destruct Hhigh as [Hr|Hr]; [exact Hr|].
    assert (0 < 2 ^ (8 * w)) by (apply Z.pow_pos_nonneg; lia). lia.
  - apply Z.pow_nonzero; lia.
Qed.

(** X2. [msb_load] of a width of 0 to 8 bytes is an unsigned number of that
    many bytes, whatever the buffer holds and however short it is. *)
Theorem msb_load_bounded (buf : list byte) (base : nat) (w : Z) :
  0 <= w <= 8 -> 0 <= msb_load buf base w < 2 ^ (8 * w).
Proof. apply msb_load_range. Qed.

Lemma msb_load_bounded_witness :
  0 <= msb_load [xff; xff; xff] 1 8 < 2 ^ (8 * 8).
Proof. apply msb_load_bounded. lia. Defined.

(** X3. [msb_store] writes the bytes from [base] to [base + length - 1]
    and nothing else: the buffer keeps its size and every other byte. *)
Theorem msb_store_frame (buf : list byte) (base : nat) (src len : Z)
  (k : nat) :
  length (msb_store buf base src len) = length buf
  /\ ((k < base \/ base + Z.to_nat len <= k)%nat ->
      msb_store buf base src len !! k = buf !! k).
Proof.
  split.
  - apply length_msb_store.
  - intros Hk. apply msb_store_loop_outside. exact Hk.
Qed.

Lemma msb_store_frame_witness :
  msb_store [x01; x02; x03; x04] 1 258 2 !! 3%nat
  = [x01; x02; x03; x04] !! 3%nat.
Proof.
  apply (msb_store_frame [x01; x02; x03; x04] 1 258 2 3).
  right. simpl. lia.
Defined.

(** X4. Storing back what [msb_load] read from the same place, with the
    same width of 0 to 8 bytes, leaves the buffer as it was. *)
Theorem msb_store_msb_load (buf : list byte) (base : nat) (w : Z) :
  0 <= w <= 8 ->
  msb_store buf base (msb_load buf base w) w = buf.
Proof.
  intros Hw.
  assert (Hpow : 2 ^ (8 * Z.of_nat (Z.to_nat w)) <= 2 ^ 64).
  { change 64 with (8 * 8). apply Z.pow_le_mono_r; lia. }
  pose proof (msb_load_range buf base w Hw) as Hrange.
  assert (Hw64 : 2 ^ (8 * w) <= 2 ^ 64).
  { change 64 with (8 * 8). apply Z.pow_le_mono_r; lia. }
  destruct (msb_load_loop_digits (Z.to_nat w) buf base 0 0
              ltac:(lia) ltac:(lia)) as [_ Hdig].
  apply list_eq. intros k. unfold msb_store.
  rewrite to_u64_small by lia.
  destruct (decide (k < base \/ base + Z.to_nat w <= k)%nat) as [Hout|Hin].
  { apply msb_store_loop_outside. exact Hout. }
  destruct (decide (k < length buf)%nat) as [Hk|Hk].
  - replace k with (base + (k - base))%nat by lia.
    rewrite msb_store_loop_inside by lia.
    rewrite Z.shiftr_div_pow2 by lia.
    rewrite <- to_u8_mod. unfold msb_load.
    rewrite Hdig by lia. rewrite to_u8_u8.
    replace (base + (0 + (k - base)))%nat with (base + (k - base))%nat
      by lia.
    symmetry. apply list_lookup_lookup_total_lt. lia.
  - rewrite !(proj2 (lookup_ge_None _ _))
      by (rewrite ?length_msb_store_loop; lia).
    reflexivity.
Qed.

Lemma msb_store_msb_load_witness :
  msb_store [x01; x02; x03; x04] 1 (msb_load [x01; x02; x03; x04] 1 3) 3
  = [x01; x02; x03; x04].
Proof. apply msb_store_msb_load. lia. Defined.

(** ** Classification: calls made and what is kept *)

(** X5. The calls of [HsmInitFileContext]: none when a quick test fails;
    otherwise one [dm_make_handle] for the file's inode and generation on
    the context's fsid, and, when it succeeds, one [attr_multi_by_handle]
    that asks for the DMF attribute in the root namespace with the 5000
    bytes of the buffer, followed by one [free_handle] of that handle,
    whether the fetch succeeded or not. *)
Theorem HsmInitFileContext_trace `{Headers} `{Collaborators}
  (c : dmf_f_ctxt_t) (statp : xfs_bstat_t) (t : list call) :
  snd (HsmInitFileContext c statp t)
  = t ++
    (if likely_candidate statp
     then
       let r := make_handle (fsid (fsys c)) (bs_ino statp) (bs_gen statp) in
       Call_dm_make_handle (fsid (fsys c)) (bs_ino statp) (bs_gen statp)
       :: (if fst r =? 0
           then [Call_attr_multi_by_handle (snd r) dmf_attr_get;
                 Call_free_handle (snd r)]
           else [])
     else []).
Proof.
  unfold HsmInitFileContext, likely_candidate. run_sys.
  destruct (Z.land (bs_mode statp) S_IFMT =? S_IFREG); cbn [negb andb];
    [|symmetry; apply app_nil_r].
  destruct (Z.land (bs_xflags statp) XFS_XFLAG_HASATTR =? 0);
    cbn [negb andb]; [symmetry; apply app_nil_r|].
  destruct (Z.land (bs_dmevmask statp) DMF_EV_BITS =? 0);
    cbn [negb andb]; [symmetry; apply app_nil_r|].
  cbn [fsys with_candidate].
  destruct (make_handle (fsid (fsys c)) (bs_ino statp) (bs_gen statp))
    as [rc hanp].
  cbv beta iota zeta. cbn [fst snd].
  destruct (rc =? 0); cbn [negb]; [|reflexivity].
  fold dmf_attr_get.
  repeat case_if; cbn [snd]; rewrite <- !app_assoc; reflexivity.
Qed.

(** X6. [HsmInitFileContext] never changes the filesystem context kept in
    the file context nor the size of the buffer; it leaves [candidate] at
    0 or 1; with 0 the cached [filesize] is the one the context had, with
    1 it is [bs_size]. *)
Theorem HsmInitFileContext_keeps `{Headers} `{Collaborators}
  (c : dmf_f_ctxt_t) (statp : xfs_bstat_t) (t : list call) :
  let c' := snd (fst (HsmInitFileContext c statp t)) in
  fsys c' = fsys c
  /\ length (attrval c') = length (attrval c)
  /\ (candidate c' = 0 /\ filesize c' = filesize c
      \/ candidate c' = 1 /\ filesize c' = bs_size statp).
Proof.
  cbv zeta. unfold HsmInitFileContext. run_sys.
  do 3 (case_if; [cbn; auto|]).
  destruct (make_handle _ _ _) as [rc hanp]. cbv beta iota zeta.
  repeat case_if;
    cbn [fst snd fsys attrval candidate filesize with_candidate with_attrval
           with_attrlen with_filesize];
    rewrite ?length_inserts; auto.
Qed.

(** X7. What [HsmInitFileContext] decides does not depend on what the
    context held before: two contexts for the same filesystem, each with a
    full-size buffer, get the same [candidate], the same calls, and, when
    the file is a candidate, the same [filesize]. *)
Theorem HsmInitFileContext_forgets `{Headers} `{Collaborators}
  (c c0 : dmf_f_ctxt_t) (statp : xfs_bstat_t) (t : list call) :
  wf_ctxt c -> wf_ctxt c0 -> fsys c = fsys c0 ->
  let c' := snd (fst (HsmInitFileContext c statp t)) in
  let c0' := snd (fst (HsmInitFileContext c0 statp t)) in
  candidate c' = candidate c0'
  /\ snd (HsmInitFileContext c statp t) = snd (HsmInitFileContext c0 statp t)
  /\ (candidate c' <> 0 -> filesize c' = filesize c0').
Proof.
  intros Hwf Hwf0 Hfs. cbv zeta.
  pose proof (HsmInitFileContext_eligible c statp t Hwf) as Hel.
  pose proof (HsmInitFileContext_eligible c0 statp t Hwf0) as Hel0.
  cbv zeta in Hel, Hel0. rewrite <- Hfs in Hel0.
  split; [|split].
  - destruct (eligible (fsys c) statp);
      destruct Hel as [-> _], Hel0 as [-> _]; reflexivity.
  - apply HsmInitFileContext_calls. exact Hfs.
  - destruct (eligible (fsys c) statp);
      destruct Hel as [Hc Hsz], Hel0 as [Hc0 Hsz0].
    + intros _. rewrite Hsz, Hsz0. reflexivity.
    + intros Hne. rewrite Hc in Hne. contradiction.
Qed.

Lemma HsmInitFileContext_forgets_witness :
  candidate
    (snd (fst (@HsmInitFileContext linux_headers (fetch_ok format1_attr)
                 stale_ctxt sample_bstat [])))
  = candidate
      (snd (fst (@HsmInitFileContext linux_headers (fetch_ok format1_attr)
                   sample_ctxt sample_bstat []))).
Proof.
  apply (@HsmInitFileContext_forgets linux_headers (fetch_ok format1_attr)
           stale_ctxt sample_ctxt sample_bstat []);
    vm_compute; reflexivity.
Defined.

(** The checks that a context with [candidate] at 1 has passed. *)
Lemma HsmInitFileContext_candidate_checks `{Headers} `{Collaborators}
  (c : dmf_f_ctxt_t) (statp : xfs_bstat_t) (t : list call) :
  let c' := snd (fst (HsmInitFileContext c statp t)) in
  candidate c' = 1 ->
  u8 (attrval c' !!! XFSattrvalue0.fsys) = FSYS_TYPE_XFS
  /\ (u8 (attrval c' !!! XFSattrvalue0.version) = DMF_ATTR_FORMAT_0
      /\ attrlen c' = XFSattrvalue0.sizeof
      \/ u8 (attrval c' !!! XFSattrvalue0.version) = DMF_ATTR_FORMAT_1
         /\ MIN_FORMAT1_ATTR_LEN <= attrlen c')
  /\ (let state := msb_load (attrval c') XFSattrvalue0.state 2 in
      state = DMF_ST_DUALSTATE \/ state = DMF_ST_OFFLINE
      \/ state = DMF_ST_UNMIGRATING \/ state = DMF_ST_PARTIAL).
Proof.
  cbv zeta. unfold HsmInitFileContext. run_sys.
  do 3 (case_if; [cbn; discriminate|]).
  destruct (make_handle _ _ _) as [rc hanp]. cbv beta iota zeta.
  do 2 (case_if; [cbn; discriminate|]).
  cbn [attrval attrlen with_attrval with_attrlen with_candidate].
  set (B := list_inserts 0 _ (attrval c)).
  set (len := Z.of_nat (length _)).
  destruct (Z.eqb_spec (u8 (B !!! XFSattrvalue0.fsys)) FSYS_TYPE_XFS)
    as [Hfs|Hfs]; cbn [negb]; [|cbn; discriminate].
  destruct (Z.eqb_spec (u8 (B !!! XFSattrvalue0.version)) DMF_ATTR_FORMAT_0)
    as [Hv0|Hv0].
  - destruct (Z.eqb_spec len XFSattrvalue0.sizeof) as [Hlen|Hlen];
      cbn [negb]; [|cbn; discriminate].
    repeat match goal with
      | |- context [Z.eqb ?a ?b] => destruct (Z.eqb_spec a b)
      end;
      cbn [orb fst snd candidate attrval attrlen with_filesize
             with_candidate with_attrlen with_attrval];
      intros Hc; try discriminate Hc; auto 10.
  - destruct (Z.eqb_spec (u8 (B !!! XFSattrvalue0.version)) DMF_ATTR_FORMAT_1)
      as [Hv1|Hv1]; [|cbn; discriminate].
    destruct (Z.ltb_spec len MIN_FORMAT1_ATTR_LEN) as [Hlen|Hlen];
      [cbn; discriminate|].
    repeat match goal with
      | |- context [Z.eqb ?a ?b] => destruct (Z.eqb_spec a b)
      end;
      cbn [orb fst snd candidate attrval attrlen with_filesize
             with_candidate with_attrlen with_attrval];
      intros Hc; try discriminate Hc; auto 10.
Qed.

(** X8. When [HsmInitFileContext] leaves [candidate] at 1, the buffer
    starts with the supported filesystem type, its version byte is 0 with
    [attrlen] 22 or 1 with [attrlen] at least 48, and its state field is 2,
    3, 4 or 6: the later routines can rely on the buffer they read. *)
Theorem HsmInitFileContext_candidate_buffer `{Headers} `{Collaborators}
  (c : dmf_f_ctxt_t) (statp : xfs_bstat_t) (t : list call) :
  let c' := snd (fst (HsmInitFileContext c statp t)) in
  candidate c' = 1 ->
  u8 (attrval c' !!! XFSattrvalue0.fsys) = FSYS_TYPE_XFS
  /\ (u8 (attrval c' !!! XFSattrvalue0.version) = DMF_ATTR_FORMAT_0
      /\ attrlen c' = XFSattrvalue0.sizeof
      \/ u8 (attrval c' !!! XFSattrvalue0.version) = DMF_ATTR_FORMAT_1
         /\ MIN_FORMAT1_ATTR_LEN <= attrlen c')
  /\ (let state := msb_load (attrval c') XFSattrvalue0.state 2 in
      state = DMF_ST_DUALSTATE \/ state = DMF_ST_OFFLINE
      \/ state = DMF_ST_UNMIGRATING \/ state = DMF_ST_PARTIAL).
Proof. apply HsmInitFileContext_candidate_checks. Qed.

Lemma HsmInitFileContext_candidate_buffer_witness :
  u8 (attrval
        (snd (fst (@HsmInitFileContext linux_headers (fetch_ok format1_attr)
                     stale_ctxt sample_bstat [])))
      !!! XFSattrvalue0.fsys)
  = FSYS_TYPE_XFS.
Proof.
  apply (@HsmInitFileContext_candidate_buffer linux_headers
           (fetch_ok format1_attr) stale_ctxt sample_bstat []).
  vm_compute. reflexivity.
Defined.

(** ** The replacement attribute *)

Ltac case_nat_tests :=
  repeat match goal with
    | |- context [Nat.leb ?a ?b] => destruct (Nat.leb_spec a b)
    | |- context [Nat.ltb ?a ?b] => destruct (Nat.ltb_spec a b)
    | |- context [Nat.eqb ?a ?b] => destruct (Nat.eqb_spec a b)
    end.

Ltac not_written :=
  unfold format1_writes, format0_writes, over, store_bytes, insert_bytes;
  case_nat_tests; cbn [andb]; first [reflexivity | lia].

Lemma format1_writes_untouched (fs : Z) (k : nat) :
  (k < 2 \/ 4 <= k < 26 \/ 48 <= k)%nat -> format1_writes fs k = None.
Proof. intros Hk. not_written. Qed.

Lemma format0_writes_untouched (k : nat) :
  (k < 1 \/ 4 <= k)%nat -> format0_writes k = None.
Proof. intros Hk. not_written. Qed.

Lemma lookup_overwrite_None (W : nat -> option byte) (buf : list byte)
  (k : nat) :
  W k = None -> overwrite W buf !! k = buf !! k.
Proof.
  intros HW. rewrite lookup_overwrite, HW.
  destruct (buf !! k); reflexivity.
Qed.

Lemma lookup_overwrite_Some (W : nat -> option byte) (buf : list byte)
  (k : nat) (x : byte) :
  W k = Some x -> (k < length buf)%nat -> overwrite W buf !! k = Some x.
Proof.
  intros HW Hk. rewrite lookup_overwrite, HW.
  destruct (lookup_lt_is_Some_2 buf k Hk) as [b ->]. reflexivity.
Qed.

Lemma length_overwrite (W : nat -> option byte) (buf : list byte) :
  length (overwrite W buf) = length buf.
Proof. apply length_imap. Qed.

Section Replacement.
Context `{Headers}.

(** X9. [HsmAddNewAttribute] adds nothing when the context is not a
    candidate, when the flag is not [ATTR_ROOT], or when the cursor is past
    0: it returns 1 with [*namepp = NULL], leaves the other out-parameters
    alone and does not touch the context. *)
Theorem HsmAddNewAttribute_nothing (c : dmf_f_ctxt_t) (cursor flag : Z) :
  candidate c = 0 \/ flag <> ATTR_ROOT \/ 0 < cursor ->
  HsmAddNewAttribute c cursor flag
  = (1, {| namep := None; valuep := None; valuesz := None |}, c).
Proof.
  intros Hno. unfold HsmAddNewAttribute.
  destruct (Z.eqb_spec (candidate c) 0); [reflexivity|].
  destruct (Z.eqb_spec flag ATTR_ROOT); cbn [negb]; [|reflexivity].
  destruct (Z.ltb_spec 0 cursor); [reflexivity|].
  destruct Hno as [?|[?|?]]; [contradiction | contradiction | lia].
Qed.

(** X10. [HsmAddNewAttribute] never changes the filesystem context, the
    cached [filesize], [candidate] or the size of the buffer, and never
    writes a byte at offset 48 or beyond. *)
Theorem HsmAddNewAttribute_keeps (c : dmf_f_ctxt_t) (cursor flag : Z)
  (k : nat) :
  let c' := snd (HsmAddNewAttribute c cursor flag) in
  fsys c' = fsys c /\ filesize c' = filesize c
  /\ candidate c' = candidate c
  /\ length (attrval c') = length (attrval c)
  /\ ((48 <= k)%nat -> attrval c' !! k = attrval c !! k).
Proof.
  cbv zeta.
  destruct (candidate c =? 0) eqn:Hc;
    [unfold HsmAddNewAttribute; rewrite Hc; cbn [snd]; auto|].
  destruct (negb (flag =? ATTR_ROOT)) eqn:Hflag;
    [unfold HsmAddNewAttribute; rewrite Hc, Hflag; cbn [snd]; auto|].
  destruct (0 <? cursor) eqn:Hcur;
    [unfold HsmAddNewAttribute; rewrite Hc, Hflag, Hcur; cbn [snd]; auto|].
  rewrite (HsmAddNewAttribute_run c cursor flag Hc Hflag Hcur).
  case_if; cbn [snd fsys filesize candidate attrval];
    rewrite length_overwrite; repeat split; intros Hk;
    apply lookup_overwrite_None;
    [apply format1_writes_untouched | apply format0_writes_untouched]; lia.
Qed.

(** X11. The value that [HsmAddNewAttribute] returns for a candidate keeps
    the filesystem type, the flags and the bitfile id of the attribute in
    the buffer (bytes 0 and 4 to 21), and, when it is a format 1 value of
    48 bytes, the version and the site tag as well (bytes 1 and 22 to
    25). *)
Theorem HsmAddNewAttribute_preserves (c : dmf_f_ctxt_t) (k : nat) :
  candidate c <> 0 ->
  let r := HsmAddNewAttribute c 0 ATTR_ROOT in
  exists v : list byte,
    attribute_value (snd r) (snd (fst r)) = Some v
    /\ ((k = 0 \/ 4 <= k < 22)%nat -> v !! k = attrval c !! k)
    /\ (valuesz (snd (fst r)) = Some 48 ->
        (k = 1 \/ 22 <= k < 26)%nat -> v !! k = attrval c !! k).
Proof.
  intros Hcand. cbv zeta.
  assert (Hc : (candidate c =? 0) = false) by (apply Z.eqb_neq; exact Hcand).
  assert (Hflag : negb (ATTR_ROOT =? ATTR_ROOT) = false)
    by (rewrite Z.eqb_refl; reflexivity).
  rewrite (HsmAddNewAttribute_run c 0 ATTR_ROOT Hc Hflag eq_refl).
  case_if; cbn [fst snd]; unfold attribute_value;
    cbn [valuep valuesz attrval]; eexists; (split; [reflexivity|]).
  - change (Z.to_nat 48) with 48%nat. split.
    + intros Hk. rewrite lookup_take_lt by lia.
      apply lookup_overwrite_None, format1_writes_untouched. lia.
    + intros _ Hk. rewrite lookup_take_lt by lia.
      apply lookup_overwrite_None, format1_writes_untouched. lia.
  - change (Z.to_nat 22) with 22%nat. split.
    + intros Hk. rewrite lookup_take_lt by lia.
      apply lookup_overwrite_None, format0_writes_untouched. lia.
    + intros Hsz. discriminate Hsz.
Qed.

(** The value returned for a candidate whose full-size buffer starts with
    the supported filesystem type passes the checks of
    [HsmInitFileContext]. *)
Lemma HsmAddNewAttribute_qualifies (c : dmf_f_ctxt_t) :
  wf_ctxt c -> candidate c <> 0 ->
  u8 (attrval c !!! XFSattrvalue0.fsys) = FSYS_TYPE_XFS ->
  let r := HsmAddNewAttribute c 0 ATTR_ROOT in
  exists v : list byte,
    attribute_value (snd r) (snd (fst r)) = Some v
    /\ attr_qualifies v = true
    /\ global_state v = Some DMF_ST_OFFLINE.
Proof.
  intros Hwf Hcand Hfs. cbv zeta.
  unfold wf_ctxt, ATTRVAL_SIZE in Hwf.
  assert (Hc : (candidate c =? 0) = false) by (apply Z.eqb_neq; exact Hcand).
  assert (Hflag : negb (ATTR_ROOT =? ATTR_ROOT) = false)
    by (rewrite Z.eqb_refl; reflexivity).
  rewrite (HsmAddNewAttribute_run c 0 ATTR_ROOT Hc Hflag eq_refl).
  destruct (lookup_lt_is_Some_2 (attrval c) 0 ltac:(lia)) as [b0 Hb0].
  destruct (lookup_lt_is_Some_2 (attrval c) 1 ltac:(lia)) as [b1 Hb1].
  change XFSattrvalue0.fsys with 0%nat in Hfs.
  rewrite (list_lookup_total_correct _ _ _ Hb0) in Hfs.
  rewrite (list_lookup_total_correct _ _ _ Hb1).
  destruct (Z.eqb_spec (u8 b1) 1) as [Hv1|Hv1]; cbn [andb];
    [destruct (negb (msb_load (attrval c) 22 4 =? 0))|];
    cbn [fst snd]; unfold attribute_value; cbn [valuep valuesz attrval];
    eexists; (split; [reflexivity|]).
  - change (Z.to_nat 48) with 48%nat.
    set (v := take 48 (overwrite (format1_writes (filesize c)) (attrval c))).
    assert (H0 : v !! 0%nat = Some b0).
    { subst v. rewrite lookup_take_lt by lia.
      rewrite lookup_overwrite_None by reflexivity. exact Hb0. }
    assert (H1 : v !! 1%nat = Some b1).
    { subst v. rewrite lookup_take_lt by lia.
      rewrite lookup_overwrite_None by reflexivity. exact Hb1. }
    assert (H2 : v !! 2%nat = Some x00).
    { subst v. rewrite lookup_take_lt by lia.
      apply lookup_overwrite_Some; [reflexivity | lia]. }
    assert (H3 : v !! 3%nat = Some x03).
    { subst v. rewrite lookup_take_lt by lia.
      apply lookup_overwrite_Some; [reflexivity | lia]. }
    assert (Hlen : Z.of_nat (length v) = 48).
    { subst v. rewrite length_take, length_overwrite. lia. }
    unfold attr_qualifies, fsys_supported, format_and_length_ok,
      state_projectable, global_state, attr_byte.
    rewrite H0, H1, H2, H3, Hlen. cbn [fmap option_fmap option_map].
    rewrite Hfs, Hv1. split; reflexivity.
  - change (Z.to_nat 22) with 22%nat.
    set (v := take 22 (overwrite format0_writes (attrval c))).
    assert (H0 : v !! 0%nat = Some b0).
    { subst v. rewrite lookup_take_lt by lia.
      rewrite lookup_overwrite_None by reflexivity. exact Hb0. }
    assert (H1 : v !! 1%nat = Some x00).
    { subst v. rewrite lookup_take_lt by lia.
      apply lookup_overwrite_Some; [reflexivity | lia]. }
    assert (H2 : v !! 2%nat = Some x00).
    { subst v. rewrite lookup_take_lt by lia.
      apply lookup_overwrite_Some; [reflexivity | lia]. }
    assert (H3 : v !! 3%nat = Some x03).
    { subst v. rewrite lookup_take_lt by lia.
      apply lookup_overwrite_Some; [reflexivity | lia]. }
    assert (Hlen : Z.of_nat (length v) = 22).
    { subst v. rewrite length_take, length_overwrite. lia. }
    unfold attr_qualifies, fsys_supported, format_and_length_ok,
      state_projectable, global_state, attr_byte.
    rewrite H0, H1, H2, H3, Hlen. cbn [fmap option_fmap option_map].
    rewrite Hfs. split; reflexivity.
  - change (Z.to_nat 22) with 22%nat.
    set (v := take 22 (overwrite format0_writes (attrval c))).
    assert (H0 : v !! 0%nat = Some b0).
    { subst v. rewrite lookup_take_lt by lia.
      rewrite lookup_overwrite_None by reflexivity. exact Hb0. }
    assert (H1 : v !! 1%nat = Some x00).
    { subst v. rewrite lookup_take_lt by lia.
      apply lookup_overwrite_Some; [reflexivity | lia]. }
    assert (H2 : v !! 2%nat = Some x00).
    { subst v. rewrite lookup_take_lt by lia.
      apply lookup_overwrite_Some; [reflexivity | lia]. }
    assert (H3 : v !! 3%nat = Some x03).
    { subst v. rewrite lookup_take_lt by lia.
      apply lookup_overwrite_Some; [reflexivity | lia]. }
    assert (Hlen : Z.of_nat (length v) = 22).
    { subst v. rewrite length_take, length_overwrite. lia. }
    unfold attr_qualifies, fsys_supported, format_and_length_ok,
      state_projectable, global_state, attr_byte.
    rewrite H0, H1, H2, H3, Hlen. cbn [fmap option_fmap option_map].
    rewrite Hfs. split; reflexivity.
Qed.

End Replacement.

Lemma HsmAddNewAttribute_preserves_witness :
  exists v : list byte,
    attribute_value (snd (@HsmAddNewAttribute linux_headers format1_ctxt 0 2))
      (snd (fst (@HsmAddNewAttribute linux_headers format1_ctxt 0 2)))
    = Some v
    /\ v !! 10%nat = attrval format1_ctxt !! 10%nat.
Proof.
  destruct (@HsmAddNewAttribute_preserves linux_headers format1_ctxt 10
              ltac:(vm_compute; discriminate)) as (v & Hv & Hkeep & _).
  exists v. split; [exact Hv | apply Hkeep; lia].
Defined.

Lemma HsmAddNewAttribute_nothing_witness :
  @HsmAddNewAttribute linux_headers format1_ctxt 1 2
  = (1, {| namep := None; valuep := None; valuesz := None |}, format1_ctxt).
Proof.
  apply (@HsmAddNewAttribute_nothing linux_headers format1_ctxt 1 2).
  right. right. lia.
Defined.

Lemma HsmAddNewAttribute_keeps_witness :
  attrval (snd (@HsmAddNewAttribute linux_headers format1_ctxt 0 2)) !! 48%nat
  = attrval format1_ctxt !! 48%nat.
Proof.
  apply (@HsmAddNewAttribute_keeps linux_headers format1_ctxt 0 2 48). lia.
Defined.

(** [HsmInitFileContext] keeps the buffer at its full size. *)
Lemma HsmInitFileContext_wf `{Headers} `{Collaborators} (c : dmf_f_ctxt_t)
  (statp : xfs_bstat_t) (t : list call) :
  wf_ctxt c -> wf_ctxt (snd (fst (HsmInitFileContext c statp t))).
Proof.
  unfold wf_ctxt. intros Hwf. rewrite <- Hwf. f_equal.
  unfold HsmInitFileContext. run_sys.
  do 3 (case_if; [reflexivity|]).
  destruct (make_handle _ _ _) as [rc hanp]. cbv beta iota zeta.
  repeat case_if;
    cbn [fst snd attrval with_candidate with_attrval with_attrlen
           with_filesize];
    rewrite ?length_inserts; reflexivity.
Qed.

(** X12. Round trip through the dump: when [HsmInitFileContext] has made a
    context with a full-size buffer a candidate, the value that
    [HsmAddNewAttribute] then returns is an attribute of supported type,
    format 0 with 22 bytes or format 1 with 48, and global state offline
    (3); and a later [HsmInitFileContext] that fetches this value for a
    file passing the quick tests makes that file a candidate again. *)
Theorem replacement_is_candidate_again `{Headers} `{Collaborators}
  (c : dmf_f_ctxt_t) (statp : xfs_bstat_t) (t : list call) :
  wf_ctxt c ->
  let c1 := snd (fst (HsmInitFileContext c statp t)) in
  candidate c1 = 1 ->
  let r := HsmAddNewAttribute c1 0 ATTR_ROOT in
  exists v : list byte,
    attribute_value (snd r) (snd (fst r)) = Some v
    /\ attr_qualifies v = true
    /\ global_state v = Some DMF_ST_OFFLINE
    /\ forall (K : Collaborators) (c0 : dmf_f_ctxt_t) (statp0 : xfs_bstat_t)
         (t0 : list call) (hanp : handle),
         wf_ctxt c0 -> likely_candidate statp0 = true ->
         @make_handle K (fsid (fsys c0)) (bs_ino statp0) (bs_gen statp0)
         = (0, hanp) ->
         @attr_multi K hanp dmf_attr_get
         = {| ar_error := 0; ar_am_error := 0; ar_value := v |} ->
         candidate (snd (fst (@HsmInitFileContext _ K c0 statp0 t0))) = 1.
Proof.
  intros Hwf. cbv zeta. intros Hc1.
  pose proof (HsmInitFileContext_wf c statp t Hwf) as Hwf1.
  destruct (HsmInitFileContext_candidate_checks c statp t Hc1)
    as (Hfs & _).
  destruct (HsmAddNewAttribute_qualifies _ Hwf1
              ltac:(rewrite Hc1; discriminate) Hfs) as (v & Hv & Hq & Hst).
  exists v. repeat split; try assumption.
  intros K c0 statp0 t0 hanp Hwf0 Hquick Hmk Hreply.
  rewrite (@HsmInitFileContext_fetched _ K c0 statp0 t0 hanp Hwf0 Hquick Hmk)
    by (rewrite Hreply; reflexivity).
  rewrite Hreply. cbn [ar_value]. rewrite Hq. reflexivity.
Qed.

Lemma replacement_is_candidate_again_witness :
  exists v : list byte,
    attribute_value
      (snd (@HsmAddNewAttribute linux_headers
              (snd (fst (@HsmInitFileContext linux_headers
                           (fetch_ok format1_attr) stale_ctxt sample_bstat
                           [])))
              0 2))
      (snd (fst (@HsmAddNewAttribute linux_headers
                   (snd (fst (@HsmInitFileContext linux_headers
                                (fetch_ok format1_attr) stale_ctxt
                                sample_bstat [])))
                   0 2)))
    = Some v
    /\ attr_qualifies v = true.
Proof.
  destruct (@replacement_is_candidate_again linux_headers
              (fetch_ok format1_attr) stale_ctxt sample_bstat []
              ltac:(vm_compute; reflexivity) ltac:(vm_compute; reflexivity))
    as (v & Hv & Hq & _).
  exists v. split; [exact Hv | exact Hq].
Defined.

(** ** Filtering and replacing the attribute *)

Lemma strcmp_0_iff (a b : string) : strcmp a b = 0 <-> a = b.
Proof.
  unfold strcmp. split.
  - destruct (String.compare a b) eqn:E; try discriminate.
    intros _. apply String.compare_eq_iff. exact E.
  - intros ->.
    pose proof (String.compare_antisym b b) as E.
    destruct (String.compare b b); [reflexivity | discriminate E
                                   | discriminate E].
Qed.

Section Filter.
Context `{Headers}.

(** X13. [HsmFilterExistingAttribute] asks to skip an attribute exactly
    when the context is a candidate, the flag is [ATTR_ROOT], the name is
    the DMF attribute name and the size is at least 22; it fails (returns
    0) exactly when the first three hold and the size is below 22; it
    never fails with [*skip_entry] set. *)
Theorem HsmFilterExistingAttribute_cases (c : dmf_f_ctxt_t) (name : string)
  (valuesz flag : Z) :
  let managed :=
    candidate c <> 0 /\ flag = ATTR_ROOT /\ name = DMF_ATTR_NAME in
  let r := HsmFilterExistingAttribute c name valuesz flag in
  (r = (1, 1) <-> managed /\ XFSattrvalue0.sizeof <= valuesz)
  /\ (r = (0, 0) <-> managed /\ valuesz < XFSattrvalue0.sizeof)
  /\ (r = (1, 0) <-> ~ managed)
  /\ r <> (0, 1).
Proof.
  cbv zeta. unfold HsmFilterExistingAttribute.
  pose proof (strcmp_0_iff name DMF_ATTR_NAME) as Hname.
  destruct (Z.eqb_spec (candidate c) 0) as [Hc|Hc];
    [|destruct (Z.eqb_spec flag ATTR_ROOT) as [Hf|Hf]; cbn [negb];
      [destruct (Z.eqb_spec (strcmp name DMF_ATTR_NAME) 0) as [Hn|Hn];
       cbn [negb];
       [destruct (Z.ltb_spec valuesz XFSattrvalue0.sizeof) as [Hsz|Hsz]|]|]];
    intuition (try discriminate; try congruence; try lia).
Qed.

(** X14. The attribute is replaced, never lost or doubled: whenever
    [HsmFilterExistingAttribute] asks to skip an attribute,
    [HsmAddNewAttribute] with cursor 0 and the same flag supplies one of
    that name; and whenever [HsmAddNewAttribute] supplies an attribute,
    [HsmFilterExistingAttribute] asks to skip the attribute of that name
    under that flag if its size is at least 22. *)
Theorem filtered_attribute_is_replaced (c : dmf_f_ctxt_t) (name : string)
  (valuesz flag cursor : Z) :
  (HsmFilterExistingAttribute c name valuesz flag = (1, 1) ->
   namep (snd (fst (HsmAddNewAttribute c 0 flag))) = Some name)
  /\ (namep (snd (fst (HsmAddNewAttribute c cursor flag))) = Some name ->
      XFSattrvalue0.sizeof <= valuesz ->
      HsmFilterExistingAttribute c name valuesz flag = (1, 1)).
Proof.
  unfold HsmFilterExistingAttribute, HsmAddNewAttribute.
  destruct (Z.eqb_spec (candidate c) 0) as [Hc|Hc];
    [split; [discriminate | cbn; discriminate]|].
  destruct (Z.eqb_spec flag ATTR_ROOT) as [Hf|Hf]; cbn [negb];
    [|split; [discriminate | cbn; discriminate]].
  split.
  - destruct (Z.eqb_spec (strcmp name DMF_ATTR_NAME) 0) as [Hn|Hn];
      cbn [negb]; [|discriminate].
    apply strcmp_0_iff in Hn. subst name.
    intros _. reflexivity.
  - destruct (0 <? cursor); [cbn; discriminate|].
    cbn [fst snd namep]. intros [= <-] Hsz.
    change (strcmp DMF_ATTR_NAME DMF_ATTR_NAME =? 0) with true. cbn [negb].
    destruct (Z.ltb_spec valuesz XFSattrvalue0.sizeof); [lia|reflexivity].
Qed.

End Filter.

Lemma HsmFilterExistingAttribute_cases_witness :
  @HsmFilterExistingAttribute linux_headers stale_ctxt DMF_ATTR_NAME 22 2
  = (1, 1).
Proof.
  apply (@HsmFilterExistingAttribute_cases linux_headers stale_ctxt
           DMF_ATTR_NAME 22 2).
  repeat split; [vm_compute; discriminate | vm_compute; discriminate].
Defined.

Lemma filtered_attribute_is_replaced_witness :
  namep (snd (fst (@HsmAddNewAttribute linux_headers stale_ctxt 0 2)))
  = Some DMF_ATTR_NAME.
Proof.
  apply (@filtered_attribute_is_replaced linux_headers stale_ctxt
           DMF_ATTR_NAME 22 2 0).
  reflexivity.
Defined.

(** ** The extent map and the inode *)

Section Projection.
Context `{Headers}.

(** X15. [HsmModifyExtentMap] can be applied again to the array it
    returned (two entries or more) without changing it further. *)
Theorem HsmModifyExtentMap_idempotent (c : dmf_f_ctxt_t) (b0 b1 : getbmapx)
  (rest : list getbmapx) :
  let bmap := b0 :: b1 :: rest in
  HsmModifyExtentMap c (snd (HsmModifyExtentMap c bmap))
  = HsmModifyExtentMap c bmap.
Proof.
  cbv zeta. unfold HsmModifyExtentMap.
  change ((b0 :: b1 :: rest) !!! 0%nat) with b0.
  change ((b0 :: b1 :: rest) !!! 1%nat) with b1.
  set (len := to_s64 (to_u64 (BTOBB (filesize c) - bmv_offset b1))).
  destruct (bmv_entries b0 <=? 0) eqn:Hn.
  { cbn [snd]. change ((b0 :: b1 :: rest) !!! 0%nat) with b0.
    rewrite Hn. reflexivity. }
  destruct (candidate c =? 0) eqn:Hc.
  { cbn [snd]. change ((b0 :: b1 :: rest) !!! 0%nat) with b0.
    rewrite Hn. reflexivity. }
  destruct (0 <? len) eqn:Hlen;
    cbn [snd insert list_insert list_alter alter lookup_total
           list_lookup_total bmv_entries with_bmv_entries bmv_offset
           with_bmv_block with_bmv_length];
    fold len; rewrite ?Hlen; reflexivity.
Qed.

(** X16. [HsmModifyExtentMap] changes at most the count of entry 0 and the
    block and length of entry 1: the array keeps its size, every entry from
    the third on, the offset of entry 1 and all other fields; for a
    candidate and a positive count, the count it leaves is 0 or 1. *)
Theorem HsmModifyExtentMap_frame (c : dmf_f_ctxt_t) (b0 b1 : getbmapx)
  (rest : list getbmapx) :
  exists (n block len : Z),
    snd (HsmModifyExtentMap c (b0 :: b1 :: rest))
    = {| bmv_offset := bmv_offset b0; bmv_block := bmv_block b0;
         bmv_length := bmv_length b0; bmv_count := bmv_count b0;
         bmv_entries := n; bmv_iflags := bmv_iflags b0;
         bmv_oflags := bmv_oflags b0 |}
      :: {| bmv_offset := bmv_offset b1; bmv_block := block;
            bmv_length := len; bmv_count := bmv_count b1;
            bmv_entries := bmv_entries b1; bmv_iflags := bmv_iflags b1;
            bmv_oflags := bmv_oflags b1 |}
      :: rest
    /\ (n = bmv_entries b0 \/ n = 0 \/ n = 1)
    /\ (0 < bmv_entries b0 -> candidate c <> 0 -> n = 0 \/ n = 1).
Proof.
  unfold HsmModifyExtentMap.
  change ((b0 :: b1 :: rest) !!! 0%nat) with b0.
  change ((b0 :: b1 :: rest) !!! 1%nat) with b1.
  destruct b0 as [o0 k0 l0 c0 e0 i0 f0], b1 as [o1 k1 l1 c1 e1 i1 f1].
  cbn [bmv_entries bmv_offset].
  destruct (Z.leb_spec e0 0);
    [|destruct (Z.eqb_spec (candidate c) 0); [|case_if]]; cbn [snd].
  - exists e0, k1, l1. split; [reflexivity|]. split; [auto|lia].
  - exists e0, k1, l1. split; [reflexivity|]. split; [auto|tauto].
  - eexists 1, (-1), _. split; [reflexivity|]. auto.
  - exists 0, k1, l1. split; [reflexivity|]. auto.
Qed.

(** X17. For a candidate, a positive count, a size and a block offset that
    are not negative (and a basic block shift of at most 62):
    [HsmModifyExtentMap] reports a hole exactly when the offset is before
    the end of the file in basic blocks, and the hole then ends at the end
    of the file; at or past the end it reports no entry. *)
Theorem HsmModifyExtentMap_hole_to_eof (c : dmf_f_ctxt_t) (b0 b1 : getbmapx)
  (rest : list getbmapx) :
  0 < bmv_entries b0 -> candidate c <> 0 ->
  0 <= BBSHIFT <= 62 -> 0 <= filesize c < 2 ^ 63 ->
  0 <= bmv_offset b1 < 2 ^ 63 ->
  let eof := (filesize c + 2 ^ BBSHIFT - 1) / 2 ^ BBSHIFT in
  let bmap' := snd (HsmModifyExtentMap c (b0 :: b1 :: rest)) in
  (bmv_offset b1 < eof ->
   bmv_entries (bmap' !!! 0%nat) = 1
   /\ bmv_block (bmap' !!! 1%nat) = -1
   /\ bmv_offset (bmap' !!! 1%nat) + bmv_length (bmap' !!! 1%nat) = eof)
  /\ (eof <= bmv_offset b1 ->
      bmv_entries (bmap' !!! 0%nat) = 0 /\ bmap' !!! 1%nat = b1).
Proof.
  intros Hn Hc Hsh Hsz Hoff. cbv zeta.
  unfold HsmModifyExtentMap.
  change ((b0 :: b1 :: rest) !!! 0%nat) with b0.
  change ((b0 :: b1 :: rest) !!! 1%nat) with b1.
  destruct (Z.leb_spec (bmv_entries b0) 0); [lia|].
  destruct (Z.eqb_spec (candidate c) 0); [contradiction|].
  rewrite to_s64_to_u64.
  destruct (BTOBB_exact (filesize c) Hsh Hsz) as [HB Hrange].
  rewrite to_s64_small by lia. rewrite HB.
  destruct (Z.ltb_spec 0 ((filesize c + 2 ^ BBSHIFT - 1) / 2 ^ BBSHIFT
                          - bmv_offset b1)); cbn [snd]; split; intros Hcmp;
    try lia; cbn; repeat split; lia.
Qed.

(** X18. [HsmModifyInode] returns 1; for a candidate the event mask it
    leaves is the four DMF bits, whatever it was, and every other field is
    kept; otherwise it leaves the structure as it is.  When the four bits
    are not all absent from the headers, metadata that passed the quick
    tests still passes them afterwards and is classified as before. *)
Theorem HsmModifyInode_spec `{Collaborators} (c : dmf_f_ctxt_t)
  (fs : dmf_fs_ctxt_t) (statp : xfs_bstat_t) :
  let r := HsmModifyInode c statp in
  fst r = 1
  /\ (candidate c = 0 -> snd r = statp)
  /\ (candidate c <> 0 ->
      bs_dmevmask (snd r) = DMF_EV_BITS
      /\ snd r
         = {| bs_ino := bs_ino statp; bs_mode := bs_mode statp;
              bs_size := bs_size statp; bs_xflags := bs_xflags statp;
              bs_gen := bs_gen statp; bs_dmevmask := DMF_EV_BITS |})
  /\ (DMF_EV_BITS <> 0 -> likely_candidate statp = true ->
      likely_candidate (snd r) = true
      /\ eligible fs (snd r) = eligible fs statp).
Proof.
  cbv zeta. unfold HsmModifyInode.
  destruct (Z.eqb_spec (candidate c) 0) as [Hc|Hc]; cbn [negb fst snd].
  - repeat split; auto; contradiction.
  - split; [reflexivity|]. split; [contradiction|].
    split; [intros _; split; reflexivity|].
    intros Hev Hquick.
    assert (Hq' : likely_candidate (with_bs_dmevmask statp DMF_EV_BITS)
                  = true).
    { unfold likely_candidate in *. cbn [bs_mode bs_xflags bs_dmevmask
                                          with_bs_dmevmask].
      apply andb_true_iff in Hquick as [Hquick _]. rewrite Hquick.
      rewrite Z.land_diag.
      destruct (Z.eqb_spec DMF_EV_BITS 0); [contradiction|reflexivity]. }
    split; [exact Hq'|].
    unfold eligible. rewrite Hq', Hquick. reflexivity.
Qed.

End Projection.

Lemma HsmModifyExtentMap_frame_witness :
  exists n : Z,
    bmv_entries
      (snd (@HsmModifyExtentMap linux_headers stale_ctxt dense_bmap)
       !!! 0%nat)
    = n
    /\ (n = 0 \/ n = 1).
Proof.
  assert (Hn : 0 < bmv_entries (dense_bmap !!! 0%nat))
    by (vm_compute; reflexivity).
  assert (Hc : candidate stale_ctxt <> 0) by (vm_compute; discriminate).
  destruct (@HsmModifyExtentMap_frame linux_headers stale_ctxt
              (dense_bmap !!! 0%nat) (dense_bmap !!! 1%nat)
              (drop 2 dense_bmap))
    as (n & block & len & Heq & _ & Hcount).
  exists n. split; [|exact (Hcount Hn Hc)].
  change dense_bmap
    with (dense_bmap !!! 0%nat :: dense_bmap !!! 1%nat :: drop 2 dense_bmap).
  rewrite Heq. reflexivity.
Defined.

Lemma HsmModifyExtentMap_hole_to_eof_witness :
  bmv_entries
    (snd (@HsmModifyExtentMap linux_headers stale_ctxt sample_bmap)
     !!! 0%nat)
  = 1.
Proof.
  assert (Hn : 0 < bmv_entries (sample_bmap !!! 0%nat))
    by (vm_compute; reflexivity).
  assert (Hc : candidate stale_ctxt <> 0) by (vm_compute; discriminate).
  assert (Hsh : 0 <= @BBSHIFT linux_headers <= 62)
    by (vm_compute; intuition discriminate).
  assert (Hsz : 0 <= filesize stale_ctxt < 2 ^ 63)
    by (vm_compute; intuition discriminate).
  assert (Hoff : 0 <= bmv_offset (sample_bmap !!! 1%nat) < 2 ^ 63)
    by (vm_compute; intuition discriminate).
  destruct (@HsmModifyExtentMap_hole_to_eof linux_headers stale_ctxt
              (sample_bmap !!! 0%nat) (sample_bmap !!! 1%nat) []
              Hn Hc Hsh Hsz Hoff) as [Hhole _].
  apply Hhole. vm_compute. reflexivity.
Defined.

Lemma HsmModifyInode_spec_witness :
  bs_dmevmask sample_bstat = 1441792
  /\ bs_dmevmask (snd (@HsmModifyInode linux_headers stale_ctxt sample_bstat))
     = 1507328.
Proof.
  assert (Hc : candidate stale_ctxt <> 0) by (vm_compute; discriminate).
  destruct (@HsmModifyInode_spec linux_headers (fetch_ok format1_attr)
              stale_ctxt sample_fs_ctxt sample_bstat)
    as (_ & _ & Hset & _).
  destruct (Hset Hc) as [Hmask _].
  split; [reflexivity | exact Hmask].
Defined.

(** ** Estimates and fresh contexts *)

(** X19. The two estimators agree on when to step aside: if
    [HsmEstimateFileSpace] makes no estimate, [HsmEstimateFileOffset] makes
    none either and calls no collaborator; and whenever
    [HsmEstimateFileOffset] makes an estimate, [HsmEstimateFileSpace]
    makes one, of 0 bytes. *)
Theorem estimators_agree `{Headers} `{Collaborators} (stack : dmf_f_ctxt_t)
  (fs : dmf_fs_ctxt_t) (statp : xfs_bstat_t) (bytecount : Z)
  (t : list call) :
  (fst (HsmEstimateFileSpace fs statp) = 0 ->
   HsmEstimateFileOffset stack fs statp bytecount t = (0, None, t))
  /\ (fst (fst (HsmEstimateFileOffset stack fs statp bytecount t)) <> 0 ->
      HsmEstimateFileSpace fs statp = (1, Some 0)).
Proof.
  unfold HsmEstimateFileSpace, HsmEstimateFileOffset, HsmInitFileContext.
  run_sys.
  destruct (negb (Z.land (bs_mode statp) S_IFMT =? S_IFREG));
    [split; [reflexivity | cbn; congruence]|].
  destruct (Z.land (bs_xflags statp) XFS_XFLAG_HASATTR =? 0);
    [split; [reflexivity | cbn; congruence]|].
  destruct (Z.land (bs_dmevmask statp) DMF_EV_BITS =? 0);
    [split; [reflexivity | cbn; congruence]|].
  split; [cbn; discriminate | reflexivity].
Qed.

Lemma estimators_agree_witness :
  @HsmEstimateFileOffset linux_headers (fetch_ok format1_attr) stale_ctxt
    sample_fs_ctxt directory_bstat 512 []
  = (0, None, []).
Proof.
  apply (@estimators_agree linux_headers (fetch_ok format1_attr) stale_ctxt
           sample_fs_ctxt directory_bstat 512 []).
  reflexivity.
Defined.

(** X20. A context fresh from [HsmAllocateFileContext] carries the
    filesystem context it was given and projects nothing until
    [HsmInitFileContext] has run: [HsmModifyInode] and [HsmModifyExtentMap]
    leave their argument as it is, [HsmFilterExistingAttribute] skips
    nothing and [HsmAddNewAttribute] adds nothing, whatever the allocated
    memory held.  When [malloc] fails there is no context. *)
Theorem HsmAllocateFileContext_inert `{Headers} (heap : dmf_f_ctxt_t)
  (fs : dmf_fs_ctxt_t) (statp : xfs_bstat_t) (bmap : list getbmapx)
  (name : string) (valuesz flag cursor : Z) :
  HsmAllocateFileContext None fs = None
  /\ exists c : dmf_f_ctxt_t,
      HsmAllocateFileContext (Some heap) fs = Some c
      /\ fsys c = fs
      /\ HsmModifyInode c statp = (1, statp)
      /\ HsmModifyExtentMap c bmap = (1, bmap)
      /\ HsmFilterExistingAttribute c name valuesz flag = (1, 0)
      /\ HsmAddNewAttribute c cursor flag
         = (1, {| namep := None; valuep := None; valuesz := None |}, c).
Proof.
  split; [reflexivity|].
  eexists. split; [reflexivity|]. split; [reflexivity|].
  split; [reflexivity|]. split.
  - unfold HsmModifyExtentMap. cbn [candidate with_candidate].
    change (0 =? 0) with true. case_if; reflexivity.
  - split; reflexivity.
Qed.

(** ** The filesystem context *)

Section Fsys.
Context `{HsmApi} `{FsysCollaborators}.

(** X21. The calls of [HsmInitFsysContext]: none for a version other than
    [HSM_API_VERSION_1]; otherwise one [path_to_fshandle] for the mount
    point and, when it succeeds, one [dm_handle_to_fsid] on the handle it
    gave followed by one [free_handle] of that handle, whether the fsid was
    found or not. *)
Theorem HsmInitFsysContext_trace (heap : option dmf_fs_ctxt_t)
  (mountpoint : string) (dumpversion : Z) (t : list fs_call) :
  snd (HsmInitFsysContext heap mountpoint dumpversion t)
  = t ++
    (if dumpversion =? HSM_API_VERSION_1
     then
       let r := fshandle_of_path mountpoint in
       Call_path_to_fshandle mountpoint
       :: (if fst r =? 0
           then [Call_dm_handle_to_fsid (snd r); Call_free_fshandle (snd r)]
           else [])
     else []).
Proof.
  unfold HsmInitFsysContext.
  destruct (dumpversion =? HSM_API_VERSION_1); cbn [negb];
    [|symmetry; apply app_nil_r].
  destruct (fshandle_of_path mountpoint) as [rc fshanp]. cbn [fst snd].
  destruct (rc =? 0); cbn [negb]; [|reflexivity].
  destruct (fsid_of_handle fshanp) as [error fsid'].
  destruct (negb (error =? 0)), heap; cbn [snd];
    rewrite <- !app_assoc; reflexivity.
Qed.

(** X22. [HsmInitFsysContext] returns a context exactly when the version
    is [HSM_API_VERSION_1], [path_to_fshandle] and [dm_handle_to_fsid]
    both return 0 and [malloc] succeeds; the context then holds that version
    and the fsid that [dm_handle_to_fsid] stored, whatever the allocated
    memory held. *)
Theorem HsmInitFsysContext_result (heap : option dmf_fs_ctxt_t)
  (mountpoint : string) (dumpversion : Z) (t : list fs_call)
  (ctx : dmf_fs_ctxt_t) :
  fst (HsmInitFsysContext heap mountpoint dumpversion t) = Some ctx
  <-> dumpversion = HSM_API_VERSION_1
      /\ fst (fshandle_of_path mountpoint) = 0
      /\ fsid_of_handle (snd (fshandle_of_path mountpoint)) = (0, fsid ctx)
      /\ heap <> None
      /\ ctx = {| dumpversion := HSM_API_VERSION_1; fsid := fsid ctx |}.
Proof.
  unfold HsmInitFsysContext.
  destruct (Z.eqb_spec dumpversion HSM_API_VERSION_1) as [Hv|Hv]; cbn [negb].
  2:{ cbn [fst]. split; [discriminate | intros [? _]; contradiction]. }
  destruct (fshandle_of_path mountpoint) as [rc fshanp]. cbn [fst snd].
  destruct (Z.eqb_spec rc 0) as [Hrc|Hrc]; cbn [negb].
  2:{ cbn [fst]. split; [discriminate | intros (_ & ? & _); contradiction]. }
  destruct (fsid_of_handle fshanp) as [error fsid'].
  destruct (Z.eqb_spec error 0) as [Herr|Herr]; cbn [negb].
  2:{ cbn [fst]. split; [discriminate|].
      intros (_ & _ & [= ? _] & _); contradiction. }
  destruct heap as [m|]; cbn [fst].
  - subst. split.
    + intros [= <-]. cbn [fsid]. repeat split; congruence.
    + intros (_ & _ & [= ->] & _ & ->). reflexivity.
  - split; [discriminate | intros (_ & _ & _ & ? & _); contradiction].
Qed.

End Fsys.

Lemma HsmInitFsysContext_result_witness :
  fst (@HsmInitFsysContext hsm_api_1 (fixed_fsys_collaborators 0 [x2a] 0 7)
         (Some {| dumpversion := 99; fsid := 99 |}) "/mnt" 1 [])
  = Some sample_fs_ctxt.
Proof.
  apply (@HsmInitFsysContext_result hsm_api_1
           (fixed_fsys_collaborators 0 [x2a] 0 7)
           (Some {| dumpversion := 99; fsid := 99 |}) "/mnt" 1 []
           sample_fs_ctxt).
  repeat split. discriminate.
Defined.

(** ** The buffer after a fetch *)

Lemma take_list_inserts_0 (v buf : list byte) :
  (length v <= length buf)%nat ->
  take (length v) (list_inserts 0 v buf) = v.
Proof.
  intros Hfit. apply list_eq. intros k.
  destruct (decide (k < length v)%nat) as [Hk|Hk].
  - rewrite lookup_take_lt by exact Hk.
    rewrite list_lookup_inserts by lia. f_equal. lia.
  - rewrite lookup_take_ge by lia.
    symmetry. apply lookup_ge_None. lia.
Qed.

(** X23. After the quick tests and a handle, [HsmInitFileContext] leaves in
    the buffer what the fetch wrote, over the bytes that were there, and
    the rest of the buffer as it was.  When the fetch succeeded, [attrlen]
    is the length of the value, and the first [attrlen] bytes of the
    buffer are the value if it fits; when the fetch failed, [attrlen] is
    still the one of the previous file and [candidate] is 0. *)
Theorem HsmInitFileContext_buffer `{Headers} `{Collaborators}
  (c : dmf_f_ctxt_t) (statp : xfs_bstat_t) (t : list call) (hanp : handle) :
  likely_candidate statp = true ->
  make_handle (fsid (fsys c)) (bs_ino statp) (bs_gen statp) = (0, hanp) ->
  let reply := attr_multi hanp dmf_attr_get in
  let c' := snd (fst (HsmInitFileContext c statp t)) in
  attrval c' = list_inserts 0 (ar_value reply) (attrval c)
  /\ (ar_error reply = 0 /\ ar_am_error reply = 0 ->
      attrlen c' = Z.of_nat (length (ar_value reply))
      /\ ((length (ar_value reply) <= length (attrval c))%nat ->
          take (Z.to_nat (attrlen c')) (attrval c') = ar_value reply))
  /\ (ar_error reply <> 0 \/ ar_am_error reply <> 0 ->
      attrlen c' = attrlen c /\ candidate c' = 0).
Proof.
  intros Hquick Hmk. cbv zeta.
  unfold likely_candidate in Hquick.
  apply andb_true_iff in Hquick as [Hquick Hev].
  apply andb_true_iff in Hquick as [Hreg Hattr].
  apply negb_true_iff in Hev, Hattr.
  unfold HsmInitFileContext. run_sys.
  rewrite Hreg, Hattr, Hev. cbn [negb fsys with_candidate].
  rewrite Hmk. cbv beta iota zeta. change (0 =? 0) with true.
  cbn [negb]. fold dmf_attr_get.
  set (reply := attr_multi hanp dmf_attr_get).
  destruct (Z.eqb_spec (ar_error reply) 0) as [Herr|Herr];
    [destruct (Z.eqb_spec (ar_am_error reply) 0) as [Ham|Ham]|];
    cbn [negb orb].
  - match goal with
    | |- context [if ?b1 then _ else if ?b2 then _ else if ?b3 then _ else _]
      => destruct b1, b2, b3
    end;
      cbn [fst snd attrval attrlen with_filesize with_candidate with_attrlen
             with_attrval];
      (split; [reflexivity|]);
      (split; [intros _; split; [reflexivity|];
               intros Hfit; rewrite Nat2Z.id;
               apply take_list_inserts_0; exact Hfit
              | intros [?|?]; contradiction]).
  - cbn [fst snd attrval attrlen candidate with_candidate with_attrval].
    split; [reflexivity|].
    split; [intros [_ ?]; contradiction | intros _; split; reflexivity].
  - cbn [fst snd attrval attrlen candidate with_candidate with_attrval].
    split; [reflexivity|].
    split; [intros [? _]; contradiction | intros _; split; reflexivity].
Qed.

Lemma HsmInitFileContext_buffer_witness :
  attrval
    (snd (fst (@HsmInitFileContext linux_headers (fetch_ok format1_attr)
                 stale_ctxt sample_bstat [])))
  = list_inserts 0 format1_attr (attrval stale_ctxt).
Proof.
  apply (@HsmInitFileContext_buffer linux_headers (fetch_ok format1_attr)
           stale_ctxt sample_bstat [] [x2a]); reflexivity.
Defined.
